(** * A shallow embedding of [telegram-bot/bot_functions/main.py]

    The module is a thin client of the Telegram bot HTTP API.  Three classes
    matter: [Bot] (the client), [UpdateChat] (an incoming webhook update,
    with the command extractor [get_command]) and [SentChat] (the handle
    returned by [send_message]).

    Modelling choices, all read off the source:
    - a Python [str] is a sequence of Unicode code points, here [list N];
      [len], slicing and [strip] work on code points;
    - a payload is what [json.loads] produces: [None], [bool], [int], [str],
      [list] and [dict] with string keys.  A [dict] keeps insertion order and
      the source reads it by position ([tuple(update.items())[1]]), so it is
      an association list; a Python dict is such a list with pairwise
      distinct keys.  JSON numbers with a fraction (Python [float]) are left
      out of the value type;
    - a Python exception is a value of [exn], a call that may raise returns
      a [result];
    - [requests.post(...).json()] is one step against a remote server that
      is a parameter of the model; the requests made are kept in a trace. *)

From Stdlib Require Import List ZArith NArith Bool Ascii String Lia.
From Stdlib Require DecimalString.
Import ListNotations.

Set Warnings "-register-all".

Local Open Scope Z_scope.

(** ** Python strings *)

Definition pystr := list N.

(** An ASCII literal of the source as a Python string. *)
Definition str (s : string) : pystr :=
  map N_of_ascii (list_ascii_of_string s).

Arguments str s%_string.

Fixpoint str_eqb (a b : pystr) : bool :=
  match a, b with
  | [], [] => true
  | x :: a', y :: b' => N.eqb x y && str_eqb a' b'
  | _, _ => false
  end.

(** [str.isspace] on one code point: the characters CPython's
    [_PyUnicode_IsWhitespace] accepts. *)
Definition isspace (c : N) : bool :=
  ((9 <=? c) && (c <=? 13) || (28 <=? c) && (c <=? 32)
   || (c =? 133) || (c =? 160) || (c =? 5760)
   || (8192 <=? c) && (c <=? 8202)
   || (c =? 8232) || (c =? 8233) || (c =? 8239) || (c =? 8287)
   || (c =? 12288))%N.

Fixpoint lstrip (s : pystr) : pystr :=
  match s with
  | c :: s' => if isspace c then lstrip s' else s
  | [] => []
  end.

Definition rstrip (s : pystr) : pystr := rev (lstrip (rev s)).

(** [s.strip()]: leading, then trailing white space removed. *)
Definition strip (s : pystr) : pystr := rstrip (lstrip s).

(** ** Slices

    [l[lo:hi]] and [l[lo:]] with Python's treatment of negative and
    out-of-range bounds ([PySlice_AdjustIndices], step 1). *)

Definition adjust_index (len i : Z) : Z :=
  if i <? 0 then Z.max (i + len) 0 else Z.min i len.

Definition slice {A} (l : list A) (lo hi : Z) : list A :=
  let n := Z.of_nat (List.length l) in
  let lo' := adjust_index n lo in
  let hi' := adjust_index n hi in
  firstn (Z.to_nat (hi' - lo')) (skipn (Z.to_nat lo') l).

Definition slice_from {A} (l : list A) (lo : Z) : list A :=
  skipn (Z.to_nat (adjust_index (Z.of_nat (List.length l)) lo)) l.

(** ** Values and exceptions *)

Inductive value : Type :=
| VNone
| VBool (b : bool)
| VInt (z : Z)
| VStr (s : pystr)
| VList (l : list value)
| VDict (d : list (pystr * value)).

Definition dict := list (pystr * value).

(** The exceptions.  The first four are the built-in ones the module's
    expressions raise.  [RequestError] stands for whatever the HTTP
    transport raises.  [MalformedPayload] and [MissingCredential] are the
    error kinds of the specification's taxonomy: no statement of the source
    raises them. *)
Inductive exn : Type :=
| IndexError
| KeyError
| AttributeError
| TypeError
| RequestError
| MalformedPayload
| MissingCredential.

Inductive result (A : Type) : Type :=
| Ok (a : A)
| Raise (e : exn).

Arguments Ok {A} a.
Arguments Raise {A} e.

Definition bind {A B} (r : result A) (k : A -> result B) : result B :=
  match r with
  | Ok a => k a
  | Raise e => Raise e
  end.

Notation "x <- c ;; k" := (bind c (fun x => k))
  (at level 61, c at next level, right associativity).

(** ** Dictionaries and the operations the module applies to values *)

Fixpoint lookup (k : pystr) (d : dict) : option value :=
  match d with
  | [] => None
  | (k', v) :: d' => if str_eqb k k' then Some v else lookup k d'
  end.

(** Assignment of a key: an existing key keeps its place and takes the new
    value, a new key goes last.  A dict display [{k1: v1, ...}] assigns its
    items from left to right. *)
Fixpoint dict_set (k : pystr) (v : value) (d : dict) : dict :=
  match d with
  | [] => [(k, v)]
  | (k', v') :: d' =>
      if str_eqb k k' then (k', v) :: d' else (k', v') :: dict_set k v d'
  end.

Definition dict_display (items : list (pystr * value)) : dict :=
  fold_left (fun d kv => dict_set (fst kv) (snd kv) d) items [].

Definition dict_get (d : dict) (k : pystr) (default : value) : value :=
  match lookup k d with
  | Some v => v
  | None => default
  end.

(** [x.get(k, default)]: of the JSON types only [dict] has the attribute. *)
Definition py_get (x : value) (k : pystr) (default : value) : result value :=
  match x with
  | VDict d => Ok (dict_get d k default)
  | _ => Raise AttributeError
  end.

(** [x[k]] with a string key. *)
Definition py_item (x : value) (k : pystr) : result value :=
  match x with
  | VDict d => match lookup k d with Some v => Ok v | None => Raise KeyError end
  | _ => Raise TypeError
  end.

(** [x[0]]. A dict from JSON has string keys only, so [0] is a missing key. *)
Definition py_first (x : value) : result value :=
  match x with
  | VList (v :: _) => Ok v
  | VList [] => Raise IndexError
  | VStr (c :: _) => Ok (VStr [c])
  | VStr [] => Raise IndexError
  | VDict _ => Raise KeyError
  | _ => Raise TypeError
  end.

(** [x + n] and [x - n] for an [int] constant [n]; [bool] is a subclass of
    [int]. *)
Definition py_add_int (x : value) (n : Z) : result Z :=
  match x with
  | VInt z => Ok (z + n)
  | VBool b => Ok ((if b then 1 else 0) + n)
  | _ => Raise TypeError
  end.

(** [x[lo:hi]].  Slicing a dict raises ([TypeError] before Python 3.12,
    [KeyError] from 3.12 on, where slices are hashable). *)
Definition py_slice (x : value) (lo hi : Z) : result value :=
  match x with
  | VStr s => Ok (VStr (slice s lo hi))
  | VList l => Ok (VList (slice l lo hi))
  | _ => Raise TypeError
  end.

Definition py_slice_from (x : value) (lo : Z) : result value :=
  match x with
  | VStr s => Ok (VStr (slice_from s lo))
  | VList l => Ok (VList (slice_from l lo))
  | _ => Raise TypeError
  end.

(** [x.strip()]. *)
Definition py_strip (x : value) : result value :=
  match x with
  | VStr s => Ok (VStr (strip s))
  | _ => Raise AttributeError
  end.

(** [x == "literal"] / [x != "literal"]. *)
Definition py_eq_str (x : value) (s : pystr) : bool :=
  match x with
  | VStr t => str_eqb t s
  | _ => false
  end.

(** [tuple(d.items())[i]]. *)
Definition items_nth (d : dict) (i : nat) : result (pystr * value) :=
  match nth_error d i with
  | Some kv => Ok kv
  | None => Raise IndexError
  end.

(** [x.items()] as a sequence of pairs. *)
Definition py_items (x : value) : result dict :=
  match x with
  | VDict d => Ok d
  | _ => Raise AttributeError
  end.

(** ** [json.dumps] with its default arguments

    [ensure_ascii=True], separators [", "] and [": "]. *)

Definition hex_digit (n : N) : N :=
  (if n <? 10 then 48 + n else 87 + n)%N.

Definition u_escape (n : N) : pystr :=
  ([92; 117; hex_digit (n / 4096 mod 16); hex_digit (n / 256 mod 16);
    hex_digit (n / 16 mod 16); hex_digit (n mod 16)])%N.

Definition escape_char (c : N) : pystr :=
  (if c =? 34 then [92; 34]
   else if c =? 92 then [92; 92]
   else if c =? 10 then [92; 110]
   else if c =? 13 then [92; 114]
   else if c =? 9 then [92; 116]
   else if c =? 8 then [92; 98]
   else if c =? 12 then [92; 102]
   else if (32 <=? c) && (c <=? 126) then [c]
   else if c <? 65536 then u_escape c
   else
     let v := c - 65536 in
     u_escape (N.lor 55296 (N.land (N.shiftr v 10) 1023))
       ++ u_escape (N.lor 56320 (N.land v 1023)))%N.

Definition json_string (s : pystr) : pystr :=
  [34%N] ++ flat_map escape_char s ++ [34%N].

Definition decimal (z : Z) : pystr :=
  str (DecimalString.NilZero.string_of_int (Z.to_int z)).

Fixpoint join (sep : pystr) (l : list pystr) : pystr :=
  match l with
  | [] => []
  | [x] => x
  | x :: l' => x ++ sep ++ join sep l'
  end.

Fixpoint json_dumps (v : value) : pystr :=
  match v with
  | VNone => str "null"
  | VBool true => str "true"
  | VBool false => str "false"
  | VInt z => decimal z
  | VStr s => json_string s
  | VList l => str "[" ++ join (str ", ") (map json_dumps l) ++ str "]"
  | VDict d =>
      str "{"
        ++ join (str ", ")
             (map (fun kv => json_string (fst kv) ++ str ": " ++ json_dumps (snd kv)) d)
        ++ str "}"
  end.

(** ** The network

    A request is the URL and the [json=] body of a [requests.post]; the
    remote server answers from the requests seen so far.  [IO] threads the
    trace of requests; an exception leaves the trace as it was when it was
    raised. *)

Record request := { url : pystr; json : value }.

Definition trace := list request.

Definition IO (A : Type) := trace -> result A * trace.

Definition io_ret {A} (r : result A) : IO A := fun tr => (r, tr).

Definition io_bind {A B} (m : IO A) (k : A -> IO B) : IO B :=
  fun tr =>
    match m tr with
    | (Ok a, tr') => k a tr'
    | (Raise e, tr') => (Raise e, tr')
    end.

Section Remote.

Variable remote : trace -> request -> result value.

(** [requests.post(url, json=data).json()] *)
Definition requests_post (u : pystr) (data : value) : IO value :=
  fun tr =>
    let rq := {| url := u; json := data |} in
    (remote tr rq, tr ++ [rq]).

End Remote.

(** ** class Bot *)

Module Bot.

Record t := { __bot_token : option pystr; __base_url : pystr }.

(** [os.environ.get("TG_BOT_TOKEN")], read once when the class is made. *)
Fixpoint environ_get (k : pystr) (environ : list (pystr * pystr)) : option pystr :=
  match environ with
  | [] => None
  | (k', v) :: e' => if str_eqb k k' then Some v else environ_get k e'
  end.

Definition BOT_TOKEN (environ : list (pystr * pystr)) : option pystr :=
  environ_get (str "TG_BOT_TOKEN") environ.

Definition PARSE_MODES_HTML : pystr := str "HTML".
Definition PARSE_MODES_MD : pystr := str "MarkdownV2".

(** The replacement field [{token}] of the f-string. *)
Definition format_token (token : option pystr) : pystr :=
  match token with
  | Some s => s
  | None => str "None"
  end.

(** [__init__(self, token)] *)
Definition init (token : option pystr) : t :=
  {| __bot_token := token;
     __base_url := str "https://api.telegram.org/bot" ++ format_token token |}.

(** [Bot(...)]: [token] is [None] when the argument is left out, and the
    default [BOT_TOKEN] applies. *)
Definition new (environ : list (pystr * pystr)) (token : option (option pystr))
  : IO t :=
  io_ret (Ok (init (match token with
                    | Some tok => tok
                    | None => BOT_TOKEN environ
                    end))).

Section Calls.

Variable remote : trace -> request -> result value.

Definition set_webhook (self : t) (webhook_url : value) : IO value :=
  requests_post remote (__base_url self ++ str "/setWebhook")
    (VDict (dict_display [(str "url", webhook_url)])).

Definition edit_message_text (self : t) (chat_id message_id text : value)
  : IO value :=
  requests_post remote (__base_url self ++ str "/editMessageText")
    (VDict (dict_display
              [(str "chat_id", chat_id);
               (str "message_id", message_id);
               (str "text", text);
               (str "parse_mode", VStr (str "HTML"))])).

Definition delete_message (self : t) (chat_id message_id : value) : IO value :=
  requests_post remote (__base_url self ++ str "/deleteMessage")
    (VDict (dict_display
              [(str "chat_id", chat_id); (str "message_id", message_id)])).

End Calls.

Definition callback_button (text callback_data : value) : value :=
  VDict (dict_display [(str "text", text); (str "callback_data", callback_data)]).

Definition url_button (text url : value) : value :=
  VDict (dict_display [(str "text", text); (str "url", url)]).

(** The keyword arguments of [send_message]; [None] is an argument left
    out, which takes the default of the signature. *)
Record options := {
  message_thread_id : option value;
  parse_mode : option value;
  entities : option value;
  disable_web_page_preview : option value;
  disable_notification : option value;
  protect_content : option value;
  reply_to_message_id : option value;
  allow_sending_without_reply : option value;
  reply_markup : option value
}.

Definition no_options : options :=
  {| message_thread_id := None; parse_mode := None; entities := None;
     disable_web_page_preview := None; disable_notification := None;
     protect_content := None; reply_to_message_id := None;
     allow_sending_without_reply := None; reply_markup := None |}.

Definition arg (a : option value) (default : value) : value :=
  match a with
  | Some v => v
  | None => default
  end.

Definition is_None (v : value) : bool :=
  match v with
  | VNone => true
  | _ => false
  end.

(** The dict display [data] of [send_message], its items in the order of
    the source; the key [allow_sending_without_reply] occurs twice. *)
Definition send_message_data (chat_id text : value) (o : options) : dict :=
  let message_thread_id := arg (message_thread_id o) VNone in
  let parse_mode := arg (parse_mode o) (VStr (str "HTML")) in
  let entities := arg (entities o) (VDict []) in
  let disable_web_page_preview := arg (disable_web_page_preview o) (VBool false) in
  let disable_notification := arg (disable_notification o) (VBool false) in
  let protect_content := arg (protect_content o) (VBool false) in
  let reply_to_message_id := arg (reply_to_message_id o) VNone in
  let allow_sending_without_reply :=
    arg (allow_sending_without_reply o) (VBool false) in
  let reply_markup := arg (reply_markup o) (VDict []) in
  dict_display
    [(str "chat_id", chat_id);
     (str "parse_mode",
       if is_None parse_mode then VStr PARSE_MODES_HTML else parse_mode);
     (str "text", text);
     (str "allow_sending_without_reply", VBool true);
     (str "disable_web_page_preview", disable_web_page_preview);
     (str "reply_to_message_id", reply_to_message_id);
     (str "allow_sending_without_reply", allow_sending_without_reply);
     (str "reply_markup", VStr (json_dumps reply_markup));
     (str "disable_notification", disable_notification);
     (str "protect_content", protect_content);
     (str "message_thread_id", message_thread_id);
     (str "entities", VStr (json_dumps entities))].

End Bot.

(** ** class SentChat(Bot) *)

Module SentChat.

Record t := {
  bot : Bot.t;
  update_type : pystr;
  from_id : value;
  chat_id : value;
  message_id : value;
  sent_text : value
}.

(** [__init__(self, token, sent_msg)] *)
Definition init (token : option pystr) (sent_msg : dict) : result t :=
  let super := Bot.init token in
  let update_tuple := sent_msg in
  kind <- items_nth update_tuple 1 ;;
  let update_type := fst kind in
  sender <- py_get (snd kind) (str "from") (VDict []) ;;
  from_id <- py_get sender (str "id") VNone ;;
  chat <- py_get (snd kind) (str "chat") (VDict []) ;;
  chat_id <- py_get chat (str "id") VNone ;;
  message_id <- py_get (snd kind) (str "message_id") VNone ;;
  sent_text <- py_get (snd kind) (str "message_id") VNone ;;
  Ok {| bot := super; update_type := update_type; from_id := from_id;
        chat_id := chat_id; message_id := message_id;
        sent_text := sent_text |}.

Section Calls.

Variable remote : trace -> request -> result value.

Definition edit_message_text (self : t) (text : value) : IO value :=
  Bot.edit_message_text remote (bot self) (chat_id self) (message_id self) text.

Definition delete_message (self : t) : IO value :=
  Bot.delete_message remote (bot self) (chat_id self) (message_id self).

End Calls.

End SentChat.

(** ** [Bot.send_message], which builds a [SentChat] *)

Module Client.

Section Calls.

Variable remote : trace -> request -> result value.

Definition send_message (self : Bot.t) (chat_id text : value) (o : Bot.options)
  : IO SentChat.t :=
  let url := Bot.__base_url self ++ str "/sendMessage" in
  let data := Bot.send_message_data chat_id text o in
  io_bind (requests_post remote url (VDict data)) (fun response =>
  io_ret (sent_msg <- py_items response ;;
          SentChat.init (Bot.__bot_token self) sent_msg)).

End Calls.

End Client.

(** ** class UpdateChat(Bot) *)

(** What [get_command] returns: [None], one value, or a pair. *)
Inductive command : Type :=
| NoCommand
| Name (name : value)
| NameArgument (name argument : value).

Module UpdateChat.

Record t := {
  bot : Bot.t;
  update_type : pystr;
  from_id : value;
  text : value;
  __message_type : value;
  __entities : value;
  chat_id : value;
  message_id : value
}.

(** [__init__(self, update, token)] *)
Definition init (update : dict) (token : option pystr) : result t :=
  let super := Bot.init token in
  let update_tuple := update in
  kind <- items_nth update_tuple 1 ;;
  let update_type := fst kind in
  sender <- py_get (snd kind) (str "from") (VDict []) ;;
  from_id <- py_get sender (str "id") VNone ;;
  text <- py_get (snd kind) (str "text") VNone ;;
  ents <- py_get (snd kind) (str "entities") (VList [VDict []]) ;;
  ent0 <- py_first ents ;;
  message_type <- py_get ent0 (str "type") (VStr (str "text")) ;;
  entities <- py_get (snd kind) (str "entities") (VList [VDict []]) ;;
  if str_eqb update_type (str "callback_query") then
    message <- py_item (snd kind) (str "message") ;;
    chat <- py_get message (str "chat") (VDict []) ;;
    chat_id <- py_get chat (str "id") VNone ;;
    message <- py_item (snd kind) (str "message") ;;
    message_id <- py_get message (str "message_id") VNone ;;
    Ok {| bot := super; update_type := update_type; from_id := from_id;
          text := text; __message_type := message_type;
          __entities := entities; chat_id := chat_id;
          message_id := message_id |}
  else
    chat <- py_get (snd kind) (str "chat") (VDict []) ;;
    chat_id <- py_get chat (str "id") VNone ;;
    message_id <- py_get (snd kind) (str "message_id") VNone ;;
    Ok {| bot := super; update_type := update_type; from_id := from_id;
          text := text; __message_type := message_type;
          __entities := entities; chat_id := chat_id;
          message_id := message_id |}.

(** The property [message_type]. *)
Definition message_type (self : t) : value := __message_type self.

(** [get_command(self, argument, only_start)] *)
Definition get_command (self : t) (argument only_start : bool) : result command :=
  if negb (py_eq_str (message_type self) (str "bot_command")) then Ok NoCommand
  else
    ent0 <- py_first (__entities self) ;;
    offset <- py_item ent0 (str "offset") ;;
    start <- py_add_int offset 1 ;;
    ent0 <- py_first (__entities self) ;;
    length <- py_item ent0 (str "length") ;;
    sum <- py_add_int length start ;;
    let end_ := sum - 1 in
    if only_start then
      if start =? 1 then
        if negb argument then
          name <- py_slice (text self) start end_ ;;
          Ok (Name name)
        else
          name <- py_slice (text self) start end_ ;;
          rest <- py_slice_from (text self) end_ ;;
          argument <- py_strip rest ;;
          Ok (NameArgument name argument)
      else Ok NoCommand
    else
      name <- py_slice (text self) start end_ ;;
      Ok (Name name).

Section Calls.

Variable remote : trace -> request -> result value.

Definition send_message (self : t) (text : value) : IO SentChat.t :=
  Client.send_message remote (bot self) (chat_id self) text Bot.no_options.


Definition reply_message (self : t) (text : value) : IO SentChat.t :=
  Client.send_message remote (bot self) (from_id self) text
    {| Bot.message_thread_id := None; Bot.parse_mode := None;
       Bot.entities := None; Bot.disable_web_page_preview := None;
       Bot.disable_notification := None; Bot.protect_content := None;
       Bot.reply_to_message_id := Some (message_id self);
       Bot.allow_sending_without_reply := None;
       Bot.reply_markup := None |}.

End Calls.

End UpdateChat.

(** [Bot.validate_update] *)
Definition validate_update (self : Bot.t) (update : dict) : result UpdateChat.t :=
  UpdateChat.init update (Bot.__bot_token self).

(** ** Notions the statements use *)

(** A string that neither starts nor ends with white space. *)
Definition trimmed (s : pystr) : bool :=
  match s with
  | [] => true
  | c :: _ => negb (isspace c) && negb (isspace (last s c))
  end.

(** The field at a path of keys in nested mappings, when every step is
    there. *)
Fixpoint field (path : list pystr) (v : value) : option value :=
  match path with
  | [] => Some v
  | k :: path' =>
      match v with
      | VDict d =>
          match lookup k d with
          | Some x => field path' x
          | None => None
          end
      | _ => None
      end
  end.

Definition or_None (o : option value) : value :=
  match o with
  | Some v => v
  | None => VNone
  end.

(** A field of the kind payload, the value of the second item. *)
Definition payload_field (update : dict) (path : list pystr) : option value :=
  match nth_error update 1 with
  | Some (_, payload) => field path payload
  | None => None
  end.

(** The first element of the kind payload's [entities]. *)
Definition first_entity (update : dict) : option value :=
  match payload_field update [str "entities"] with
  | Some (VList (ent :: _)) => Some ent
  | _ => None
  end.

(** Absent, or a mapping. *)
Definition mapping_if_present (o : option value) : bool :=
  match o with
  | None | Some (VDict _) => true
  | Some _ => false
  end.

(** Absent, or a list that starts with a mapping. *)
Definition entities_if_present (o : option value) : bool :=
  match o with
  | None | Some (VList (VDict _ :: _)) => true
  | Some _ => false
  end.

(** A payload with a second item whose value is a mapping, in which [from]
    and [entities] have the types the constructor relies on, and so has
    [chat], looked up in [message] (which must be there) for a callback
    query. *)
Definition well_formed (update : dict) : bool :=
  match nth_error update 1 with
  | Some (kind, VDict body) =>
      mapping_if_present (lookup (str "from") body)
      && entities_if_present (lookup (str "entities") body)
      && (if str_eqb kind (str "callback_query") then
            match lookup (str "message") body with
            | Some (VDict message) =>
                mapping_if_present (lookup (str "chat") message)
            | _ => false
            end
          else mapping_if_present (lookup (str "chat") body))
  | _ => false
  end.

(** ** Payloads: the scenarios of the specification and a few more *)

Definition go_foo : dict :=
  [(str "update_id", VInt 1);
   (str "message",
     VDict [(str "message_id", VInt 5);
            (str "chat", VDict [(str "id", VInt 42)]);
            (str "from", VDict [(str "id", VInt 7)]);
            (str "text", VStr (str "/go foo"));
            (str "entities",
              VList [VDict [(str "type", VStr (str "bot_command"));
                            (str "offset", VInt 0);
                            (str "length", VInt 3)]])])].

Definition hello : dict :=
  [(str "update_id", VInt 1);
   (str "message",
     VDict [(str "message_id", VInt 5);
            (str "chat", VDict [(str "id", VInt 42)]);
            (str "from", VDict [(str "id", VInt 7)]);
            (str "text", VStr (str "hello"))])].

Definition run_get_command (update : dict) (argument only_start : bool)
  : result command :=
  u <- UpdateChat.init update None ;;
  UpdateChat.get_command u argument only_start.

(** An update with a command in the middle of its text. *)
Definition say_go : dict :=
  [(str "update_id", VInt 2);
   (str "message",
     VDict [(str "message_id", VInt 6);
            (str "chat", VDict [(str "id", VInt 42)]);
            (str "from", VDict [(str "id", VInt 7)]);
            (str "text", VStr (str "say /go foo"));
            (str "entities",
              VList [VDict [(str "type", VStr (str "bot_command"));
                            (str "offset", VInt 4);
                            (str "length", VInt 3)]])])].

(** An update whose command is followed by white space only. *)
Definition go_blank : dict :=
  [(str "update_id", VInt 3);
   (str "message",
     VDict [(str "message_id", VInt 8);
            (str "chat", VDict [(str "id", VInt 42)]);
            (str "from", VDict [(str "id", VInt 7)]);
            (str "text", VStr (str "/go   "));
            (str "entities",
              VList [VDict [(str "type", VStr (str "bot_command"));
                            (str "offset", VInt 0);
                            (str "length", VInt 3)]])])].

(** A callback query: the ids sit in the nested [message]. *)
Definition pressed : dict :=
  [(str "update_id", VInt 4);
   (str "callback_query",
     VDict [(str "id", VStr (str "77"));
            (str "from", VDict [(str "id", VInt 7)]);
            (str "message",
              VDict [(str "message_id", VInt 9);
                     (str "chat", VDict [(str "id", VInt 42)])]);
            (str "data", VStr (str "1"))])].

(** A payload that has only its update id. *)
Definition only_update_id : dict := [(str "update_id", VInt 1)].

(** A message whose [from] is a string, not a mapping. *)
Definition from_a_name : dict :=
  [(str "update_id", VInt 1);
   (str "message",
     VDict [(str "message_id", VInt 5);
            (str "from", VStr (str "alice"));
            (str "text", VStr (str "hi"))])].

(** A message whose [entities] is the empty list. *)
Definition empty_entities : dict :=
  [(str "update_id", VInt 1);
   (str "message",
     VDict [(str "message_id", VInt 5);
            (str "chat", VDict [(str "id", VInt 42)]);
            (str "text", VStr (str "hi"));
            (str "entities", VList [])])].

(** A message that has nothing but its text. *)
Definition bare_text : dict :=
  [(str "update_id", VInt 1);
   (str "message", VDict [(str "text", VStr (str "hi"))])].

(** The answer of the remote API to a [sendMessage]. *)
Definition sent_hi : dict :=
  [(str "ok", VBool true);
   (str "result",
     VDict [(str "message_id", VInt 9);
            (str "chat", VDict [(str "id", VInt 42)]);
            (str "text", VStr (str "hi"))])].

(** A response on which [SentChat.__init__] relies: a second item whose
    value is a mapping in which [from] and [chat], when present, are
    mappings. *)
Definition response_well_formed (sent_msg : dict) : bool :=
  match nth_error sent_msg 1 with
  | Some (_, VDict body) =>
      mapping_if_present (lookup (str "from") body)
      && mapping_if_present (lookup (str "chat") body)
  | _ => false
  end.

(** The request [Bot.send_message] posts. *)
Definition send_request (token : option pystr) (chat_id text : value)
           (o : Bot.options) : request :=
  {| url := Bot.__base_url (Bot.init token) ++ str "/sendMessage";
     json := VDict (Bot.send_message_data chat_id text o) |}.

(** A callback query that has lost its [message]. *)
Definition pressed_no_message : dict :=
  [(str "update_id", VInt 4);
   (str "callback_query",
     VDict [(str "id", VStr (str "77"));
            (str "from", VDict [(str "id", VInt 7)]);
            (str "data", VStr (str "1"))])].

(** A mention, then a command. *)
Definition mention_then_command : dict :=
  [(str "update_id", VInt 5);
   (str "message",
     VDict [(str "message_id", VInt 10);
            (str "chat", VDict [(str "id", VInt 42)]);
            (str "from", VDict [(str "id", VInt 7)]);
            (str "text", VStr (str "@bot /go"));
            (str "entities",
              VList [VDict [(str "type", VStr (str "mention"));
                            (str "offset", VInt 0);
                            (str "length", VInt 4)];
                     VDict [(str "type", VStr (str "bot_command"));
                            (str "offset", VInt 5);
                            (str "length", VInt 3)]])])].

(** A command entity on a payload without [text]. *)
Definition command_no_text : dict :=
  [(str "update_id", VInt 6);
   (str "message",
     VDict [(str "message_id", VInt 11);
            (str "chat", VDict [(str "id", VInt 42)]);
            (str "entities",
              VList [VDict [(str "type", VStr (str "bot_command"));
                            (str "offset", VInt 0);
                            (str "length", VInt 3)]])])].

(** A command entity that lies beyond the end of the text. *)
Definition stale_entity : dict :=
  [(str "update_id", VInt 7);
   (str "message",
     VDict [(str "message_id", VInt 12);
            (str "chat", VDict [(str "id", VInt 42)]);
            (str "text", VStr (str "hi"));
            (str "entities",
              VList [VDict [(str "type", VStr (str "bot_command"));
                            (str "offset", VInt 5);
                            (str "length", VInt 3)]])])].

(** The answer of the remote API to a request it refuses. *)
Definition error_response : dict :=
  [(str "ok", VBool false);
   (str "error_code", VInt 400);
   (str "description", VStr (str "Bad Request: chat not found"))].

(** Two remote servers: one accepts every request, one refuses them. *)
Definition remote_accepts (tr : trace) (rq : request) : result value :=
  Ok (VDict sent_hi).

Definition remote_refuses (tr : trace) (rq : request) : result value :=
  Ok (VDict error_response).

(** * Properties *)

(** ** The scenarios, run *)

Example go_foo_command :
  run_get_command go_foo true true
  = Ok (NameArgument (VStr (str "go")) (VStr (str "foo"))).
Proof. reflexivity. Qed.

Example hello_no_command :
  run_get_command hello true true = Ok NoCommand.
Proof. reflexivity. Qed.

(** ** Strings, white space and slices *)

Example strip_both_ends :
  strip ([9; 32] ++ str "a b" ++ [32; 10; 160; 8195])%N = str "a b".
Proof. reflexivity. Qed.

Example slice_negative_bounds : slice (str "hello") (-3) (-1) = str "ll".
Proof. reflexivity. Qed.

Example slice_beyond_the_end :
  slice (str "hello") 3 10 = str "lo" /\ slice_from (str "hello") 10 = [].
Proof. split; reflexivity. Qed.

Example json_dumps_list :
  json_dumps (VList [VInt 1; VBool true; VNone; VInt (-12); VInt 0])
  = str "[1, true, null, -12, 0]".
Proof. reflexivity. Qed.

Example json_dumps_keyboard :
  json_dumps
    (VDict [(str "inline_keyboard",
              VList [VList [Bot.callback_button (VStr (str "A")) (VStr [233%N])]])])
  = str "{" ++ json_string (str "inline_keyboard") ++ str ": [[{"
      ++ json_string (str "text") ++ str ": " ++ json_string (str "A")
      ++ str ", " ++ json_string (str "callback_data") ++ str ": "
      ++ [34%N] ++ str "\u00e9" ++ [34%N] ++ str "}]]}".
Proof. reflexivity. Qed.

Lemma str_eqb_eq (a b : pystr) : str_eqb a b = true <-> a = b.
Proof.
  revert b; induction a as [|x a IH]; intros [|y b]; simpl;
    try (split; [discriminate | discriminate]); try tauto.
  rewrite andb_true_iff, N.eqb_eq, IH.
  split; [intros [-> ->]; reflexivity | intros H; inversion H; auto].
Qed.

Lemma str_eqb_refl (a : pystr) : str_eqb a a = true.
Proof. apply str_eqb_eq; reflexivity. Qed.

Lemma str_eqb_neq (a b : pystr) : str_eqb a b = false <-> a <> b.
Proof.
  rewrite <- str_eqb_eq. destruct (str_eqb a b); split; congruence.
Qed.

Lemma lstrip_app_space (w s : pystr) :
  forallb isspace w = true -> lstrip (w ++ s) = lstrip s.
Proof.
  induction w as [|c w IH]; simpl; [reflexivity|].
  intros H; apply andb_true_iff in H as [Hc Hw].
  rewrite Hc; auto.
Qed.

Lemma lstrip_all_space (w : pystr) : forallb isspace w = true -> lstrip w = [].
Proof.
  intros H. rewrite <- (app_nil_r w). rewrite lstrip_app_space by exact H.
  reflexivity.
Qed.

Lemma strip_all_space (w : pystr) : forallb isspace w = true -> strip w = [].
Proof.
  intros H. unfold strip, rstrip. rewrite (lstrip_all_space w) by exact H.
  reflexivity.
Qed.

Lemma strip_app_space (w s : pystr) :
  forallb isspace w = true -> strip (w ++ s) = strip s.
Proof.
  intros H. unfold strip. rewrite lstrip_app_space by exact H.
  reflexivity.
Qed.

Lemma lstrip_head (s : pystr) :
  match s with [] => True | c :: _ => isspace c = false end -> lstrip s = s.
Proof. destruct s as [|c s]; simpl; [reflexivity | intros ->; reflexivity]. Qed.

Lemma strip_trimmed (s : pystr) : trimmed s = true -> strip s = s.
Proof.
  destruct s as [|c s]; [reflexivity|].
  unfold trimmed. intros H. apply andb_true_iff in H as [Hh Hl].
  apply negb_true_iff in Hh, Hl.
  unfold strip. rewrite lstrip_head by exact Hh.
  unfold rstrip.
  destruct (exists_last (l := c :: s)) as [s' [x E]]; [discriminate|].
  rewrite E in *. rewrite last_last in Hl.
  rewrite rev_app_distr. simpl. rewrite Hl. simpl.
  rewrite rev_involutive. reflexivity.
Qed.

Lemma adjust_index_inside (len i : Z) : 0 <= i <= len -> adjust_index len i = i.
Proof.
  intros H. unfold adjust_index.
  destruct (i <? 0) eqn:E; [apply Z.ltb_lt in E; lia | lia].
Qed.

(** The slice that covers exactly the middle part of a list. *)
Lemma slice_middle {A} (pre mid post : list A) :
  slice (pre ++ mid ++ post)
    (Z.of_nat (List.length pre))
    (Z.of_nat (List.length pre) + Z.of_nat (List.length mid)) = mid.
Proof.
  unfold slice. rewrite !length_app.
  rewrite !adjust_index_inside by lia.
  replace (Z.to_nat (Z.of_nat (List.length pre) + Z.of_nat (List.length mid)
                     - Z.of_nat (List.length pre))) with (List.length mid) by lia.
  rewrite Nat2Z.id.
  rewrite skipn_app, skipn_all, Nat.sub_diag. simpl.
  rewrite firstn_app, firstn_all, Nat.sub_diag. simpl.
  apply app_nil_r.
Qed.

Lemma slice_from_suffix {A} (pre post : list A) :
  slice_from (pre ++ post) (Z.of_nat (List.length pre)) = post.
Proof.
  unfold slice_from. rewrite length_app.
  rewrite adjust_index_inside by lia.
  rewrite Nat2Z.id, skipn_app, skipn_all, Nat.sub_diag. reflexivity.
Qed.

(** ** Inversion of the calls on values *)

Lemma bind_Ok {A B} (c : result A) (k : A -> result B) (b : B) :
  bind c k = Ok b -> exists a, c = Ok a /\ k a = Ok b.
Proof. destruct c as [a|e]; simpl; [eauto | discriminate]. Qed.

Lemma py_get_Ok (x : value) (k : pystr) (default v : value) :
  py_get x k default = Ok v -> exists d, x = VDict d /\ v = dict_get d k default.
Proof. destruct x; simpl; try discriminate. intros [= <-]; eauto. Qed.

Lemma py_item_Ok (x : value) (k : pystr) (v : value) :
  py_item x k = Ok v -> exists d, x = VDict d /\ lookup k d = Some v.
Proof.
  destruct x; simpl; try discriminate.
  destruct (lookup k d) eqn:E; [intros [= <-]; eauto | discriminate].
Qed.

Ltac invert_calls :=
  repeat match goal with
    | H : bind _ _ = Ok _ |- _ =>
        let a := fresh "a" in
        let E := fresh "E" in
        apply bind_Ok in H as (a & E & H)
    | H : py_get (VDict _) _ _ = Ok _ |- _ => simpl in H; injection H as <-
    | H : py_get ?x _ _ = Ok _ |- _ =>
        is_var x; apply py_get_Ok in H as (? & -> & ->)
    | H : py_get _ _ _ = Ok _ |- _ => apply py_get_Ok in H as (? & ? & ->)
    | H : py_item (VDict _) _ = Ok _ |- _ =>
        apply py_item_Ok in H as (? & [= <-] & ?)
    | H : Ok _ = Ok _ |- _ => injection H as <-
    end.

(** What a constructed [UpdateChat] holds, in terms of the kind payload. *)
Lemma UpdateChat_init_fields (update : dict) (token : option pystr)
      (u : UpdateChat.t) :
  UpdateChat.init update token = Ok u ->
  exists kind body ent0,
    nth_error update 1 = Some (kind, VDict body)
    /\ UpdateChat.bot u = Bot.init token
    /\ UpdateChat.update_type u = kind
    /\ UpdateChat.text u = dict_get body (str "text") VNone
    /\ UpdateChat.__entities u
       = dict_get body (str "entities") (VList [VDict []])
    /\ py_first (UpdateChat.__entities u) = Ok (VDict ent0)
    /\ UpdateChat.message_type u = dict_get ent0 (str "type") (VStr (str "text")).
Proof.
  unfold UpdateChat.init, items_nth. intros H.
  destruct (nth_error update 1) as [[kind payload]|]; [|discriminate].
  simpl in H.
  destruct (str_eqb kind (str "callback_query")); invert_calls;
    do 3 eexists; unfold UpdateChat.message_type;
    cbn [UpdateChat.bot UpdateChat.update_type UpdateChat.text
         UpdateChat.__entities UpdateChat.__message_type];
    repeat split; try reflexivity; eassumption.
Qed.

(** ** Payloads on which the constructor succeeds *)

(** The ids a well-formed payload carries, as the constructor stores them. *)
Lemma UpdateChat_init_well_formed (update : dict) (token : option pystr) :
  well_formed update = true ->
  exists kind body u,
    nth_error update 1 = Some (kind, VDict body)
    /\ UpdateChat.init update token = Ok u
    /\ UpdateChat.from_id u = or_None (field [str "from"; str "id"] (VDict body))
    /\ UpdateChat.text u = or_None (field [str "text"] (VDict body))
    /\ (if str_eqb kind (str "callback_query") then
         UpdateChat.chat_id u
         = or_None (field [str "message"; str "chat"; str "id"] (VDict body))
         /\ UpdateChat.message_id u
            = or_None (field [str "message"; str "message_id"] (VDict body))
       else
         UpdateChat.chat_id u = or_None (field [str "chat"; str "id"] (VDict body))
         /\ UpdateChat.message_id u
            = or_None (field [str "message_id"] (VDict body))).
Proof.
  unfold well_formed, UpdateChat.init, items_nth.
  destruct (nth_error update 1) as [[kind [| | | | |body]]|]; try discriminate.
  intros H. apply andb_true_iff in H as [H Hchat].
  apply andb_true_iff in H as [Hfrom Hents].
  exists kind, body.
  cbn [bind fst snd py_get field]. unfold dict_get.
  destruct (lookup (str "from") body) as [[| | | | |sender]|];
    try discriminate Hfrom;
    (destruct (lookup (str "entities") body) as [[| | | |[|[| | | | |e0] es]|]|];
     try discriminate Hents);
    cbn [bind py_get py_first field]; unfold dict_get;
    (destruct (str_eqb kind (str "callback_query"));
     [ cbn [bind py_item];
       destruct (lookup (str "message") body) as [[| | | | |message]|];
       try discriminate Hchat;
       cbn [bind py_get field]; unfold dict_get;
       destruct (lookup (str "chat") message) as [[| | | | |chat]|];
       try discriminate Hchat
     | destruct (lookup (str "chat") body) as [[| | | | |chat]|];
       try discriminate Hchat ]);
    cbn [bind py_get field]; unfold dict_get;
    eexists; (split; [reflexivity|]); (split; [reflexivity|]);
    cbn [UpdateChat.from_id UpdateChat.text UpdateChat.chat_id
         UpdateChat.message_id];
    repeat split;
    repeat match goal with
      | |- context [lookup ?k ?d] => destruct (lookup k d)
      end; reflexivity.
Qed.

(** Conversely the constructor raises on every other payload. *)
Lemma UpdateChat_init_Ok_well_formed (update : dict) (token : option pystr)
      (u : UpdateChat.t) :
  UpdateChat.init update token = Ok u -> well_formed update = true.
Proof.
  unfold well_formed, UpdateChat.init, items_nth.
  destruct (nth_error update 1) as [[kind [| | | | |body]]|]; try discriminate.
  cbn [bind fst snd py_get]. unfold dict_get.
  destruct (lookup (str "from") body) as [[| | | | |sender]|];
    try discriminate;
    (destruct (lookup (str "entities") body) as [[| | | [|c s] |[|[| | | | |e0] es]|]|];
     try discriminate);
    cbn [bind py_get py_first mapping_if_present entities_if_present andb];
    unfold dict_get;
    (destruct (str_eqb kind (str "callback_query"));
     [ cbn [bind py_item];
       destruct (lookup (str "message") body) as [[| | | | |message]|];
       try discriminate;
       cbn [bind py_get]; unfold dict_get;
       destruct (lookup (str "chat") message) as [[| | | | |chat]|];
       try discriminate
     | destruct (lookup (str "chat") body) as [[| | | | |chat]|];
       try discriminate ]);
    reflexivity.
Qed.

(** ** Reading a payload *)

Lemma field_key (k : pystr) (x v : value) :
  field [k] x = Some v -> exists d, x = VDict d /\ lookup k d = Some v.
Proof.
  destruct x; simpl; try discriminate.
  destruct (lookup k d) eqn:E; [intros [= <-]; eauto | discriminate].
Qed.

Lemma UpdateChat_text (update : dict) (token : option pystr) (u : UpdateChat.t)
      (v : value) :
  UpdateChat.init update token = Ok u ->
  payload_field update [str "text"] = Some v ->
  UpdateChat.text u = v.
Proof.
  intros Hinit Hv.
  apply UpdateChat_init_fields in Hinit
    as (kind & body & ent0 & Hk & _ & _ & Ht & _).
  unfold payload_field in Hv. rewrite Hk in Hv.
  apply field_key in Hv as (d & [= <-] & Hl).
  rewrite Ht. unfold dict_get. rewrite Hl. reflexivity.
Qed.

Lemma UpdateChat_first_entity (update : dict) (token : option pystr)
      (u : UpdateChat.t) (ent : value) :
  UpdateChat.init update token = Ok u ->
  first_entity update = Some ent ->
  py_first (UpdateChat.__entities u) = Ok ent
  /\ exists d,
      ent = VDict d
      /\ UpdateChat.message_type u = dict_get d (str "type") (VStr (str "text")).
Proof.
  intros Hinit He.
  apply UpdateChat_init_fields in Hinit
    as (kind & body & ent0 & Hk & _ & _ & _ & Hents & Hfirst & Hmt).
  unfold first_entity, payload_field in He. rewrite Hk in He.
  destruct (field [str "entities"] (VDict body)) as [ents|] eqn:Ef;
    [|discriminate].
  apply field_key in Ef as (d & [= <-] & Hl).
  unfold dict_get in Hents. rewrite Hl in Hents.
  destruct ents as [| | | |[|x xs]|]; try discriminate.
  injection He as ->.
  rewrite Hents in Hfirst |- *. simpl in Hfirst. injection Hfirst as ->.
  split; [reflexivity|]. eauto.
Qed.

(** The locals [start] and [end] of [get_command] on a command entity. *)
Lemma get_command_bounds (u : UpdateChat.t) (ent : value) (offset length : Z)
      (argument only_start : bool) :
  UpdateChat.message_type u = VStr (str "bot_command") ->
  py_first (UpdateChat.__entities u) = Ok ent ->
  field [str "offset"] ent = Some (VInt offset) ->
  field [str "length"] ent = Some (VInt length) ->
  UpdateChat.get_command u argument only_start
  = let start := offset + 1 in
    let end_ := offset + length in
    if only_start then
      if start =? 1 then
        if negb argument then
          name <- py_slice (UpdateChat.text u) start end_ ;;
          Ok (Name name)
        else
          name <- py_slice (UpdateChat.text u) start end_ ;;
          rest <- py_slice_from (UpdateChat.text u) end_ ;;
          argument <- py_strip rest ;;
          Ok (NameArgument name argument)
      else Ok NoCommand
    else
      name <- py_slice (UpdateChat.text u) start end_ ;;
      Ok (Name name).
Proof.
  intros Hmt Hfirst Hoff Hlen.
  apply field_key in Hoff as (d & -> & Hoff).
  apply field_key in Hlen as (d' & [= <-] & Hlen).
  unfold UpdateChat.get_command. rewrite Hmt, Hfirst.
  cbn [py_eq_str]. rewrite str_eqb_refl.
  cbn [negb bind py_item]. rewrite Hoff, Hlen.
  cbn [bind py_add_int].
  replace (length + (offset + 1) - 1) with (offset + length) by lia.
  reflexivity.
Qed.

(** ** The command extractor *)

(** A command entity at offset 0 with both flags set: the name is
    [text[1:length]], the argument is [text[length:]] stripped. *)
Lemma get_command_leading (update : dict) (token : option pystr)
      (u : UpdateChat.t) (ent : value) (t : pystr) (length : Z) :
  UpdateChat.init update token = Ok u ->
  payload_field update [str "text"] = Some (VStr t) ->
  first_entity update = Some ent ->
  field [str "type"] ent = Some (VStr (str "bot_command")) ->
  field [str "offset"] ent = Some (VInt 0) ->
  field [str "length"] ent = Some (VInt length) ->
  UpdateChat.get_command u true true
  = Ok (NameArgument (VStr (slice t 1 length))
                     (VStr (strip (slice_from t length)))).
Proof.
  intros Hinit Htext Hent Htype Hoff Hlen.
  destruct (UpdateChat_first_entity _ _ _ _ Hinit Hent)
    as (Hfirst & d & -> & Hmt).
  apply field_key in Htype as (d' & [= <-] & Htype).
  unfold dict_get in Hmt. rewrite Htype in Hmt.
  rewrite (get_command_bounds u (VDict d) 0 length true true Hmt Hfirst Hoff Hlen).
  rewrite (UpdateChat_text _ _ _ _ Hinit Htext).
  reflexivity.
Qed.

(** C1. For a message whose text is "/name arg" and whose first entity is
    a bot command at offset 0 of length len(name)+1, get_command with both
    flags set returns the pair of the name and the text after the command
    substring with surrounding white space removed, which is [arg] itself
    when [arg] neither starts nor ends with white space. *)
Theorem get_command_name_and_argument
        (update : dict) (token : option pystr) (u : UpdateChat.t)
        (ent : value) (name arg : pystr) :
  UpdateChat.init update token = Ok u ->
  payload_field update [str "text"]
  = Some (VStr (str "/" ++ name ++ str " " ++ arg)) ->
  first_entity update = Some ent ->
  field [str "type"] ent = Some (VStr (str "bot_command")) ->
  field [str "offset"] ent = Some (VInt 0) ->
  field [str "length"] ent = Some (VInt (Z.of_nat (List.length name) + 1)) ->
  UpdateChat.get_command u true true
  = Ok (NameArgument (VStr name) (VStr (strip arg)))
  /\ (trimmed arg = true ->
      UpdateChat.get_command u true true
      = Ok (NameArgument (VStr name) (VStr arg))).
Proof.
  intros Hinit Htext Hent Htype Hoff Hlen.
  assert (H : UpdateChat.get_command u true true
              = Ok (NameArgument (VStr name) (VStr (strip arg)))).
  { rewrite (get_command_leading _ _ _ _ _ _ Hinit Htext Hent Htype Hoff Hlen).
    do 3 f_equal.
    - replace (Z.of_nat (List.length name) + 1)
        with (Z.of_nat (List.length (str "/")) + Z.of_nat (List.length name))
        by (change (List.length (str "/")) with 1%nat; lia).
      apply (slice_middle (str "/") name (str " " ++ arg)).
    - replace (Z.of_nat (List.length name) + 1)
        with (Z.of_nat (List.length (str "/" ++ name)))
        by (rewrite length_app; change (List.length (str "/")) with 1%nat; lia).
      rewrite app_assoc, slice_from_suffix.
      apply strip_app_space. reflexivity. }
  split; [exact H|].
  intros Htrim. rewrite H, (strip_trimmed arg Htrim). reflexivity.
Qed.

Lemma get_command_name_and_argument_witness :
  exists u,
    UpdateChat.init go_foo None = Ok u
    /\ UpdateChat.get_command u true true
       = Ok (NameArgument (VStr (str "go")) (VStr (str "foo"))).
Proof.
  eexists. split; [reflexivity|].
  refine (proj2 (get_command_name_and_argument go_foo None _
                   (VDict [(str "type", VStr (str "bot_command"));
                           (str "offset", VInt 0);
                           (str "length", VInt 3)])
                   (str "go") (str "foo") _ _ _ _ _ _) _);
    reflexivity.
Defined.

(** C2. An update whose kind payload has no [entities] key has message
    type "text", and get_command returns None on it for all four
    combinations of the flags. *)
Theorem no_entities_message_type_text
        (update : dict) (token : option pystr) (u : UpdateChat.t) :
  UpdateChat.init update token = Ok u ->
  payload_field update [str "entities"] = None ->
  UpdateChat.message_type u = VStr (str "text")
  /\ forall argument only_start : bool,
      UpdateChat.get_command u argument only_start = Ok NoCommand.
Proof.
  intros Hinit Hnone.
  apply UpdateChat_init_fields in Hinit
    as (kind & body & ent0 & Hk & _ & _ & _ & Hents & Hfirst & Hmt).
  unfold payload_field in Hnone. rewrite Hk in Hnone.
  cbn [field] in Hnone.
  unfold dict_get in Hents.
  destruct (lookup (str "entities") body); [discriminate|].
  rewrite Hents in Hfirst. injection Hfirst as <-.
  change (dict_get [] (str "type") (VStr (str "text")))
    with (VStr (str "text")) in Hmt.
  split; [exact Hmt|].
  intros argument only_start.
  unfold UpdateChat.get_command. rewrite Hmt. reflexivity.
Qed.

Lemma no_entities_message_type_text_witness :
  exists u,
    UpdateChat.init hello None = Ok u
    /\ UpdateChat.message_type u = VStr (str "text")
    /\ forall argument only_start : bool,
        UpdateChat.get_command u argument only_start = Ok NoCommand.
Proof.
  eexists. split; [reflexivity|].
  apply (no_entities_message_type_text hello None); reflexivity.
Defined.

(** C3. When the first entity is a bot command at an offset greater than
    0, get_command with only_start set returns None, and with only_start
    unset it returns text[offset+1 : offset+length], whatever the argument
    flag. *)
Theorem get_command_not_leading
        (update : dict) (token : option pystr) (u : UpdateChat.t)
        (ent : value) (offset length : Z) :
  UpdateChat.init update token = Ok u ->
  first_entity update = Some ent ->
  field [str "type"] ent = Some (VStr (str "bot_command")) ->
  field [str "offset"] ent = Some (VInt offset) ->
  field [str "length"] ent = Some (VInt length) ->
  0 < offset ->
  (forall argument : bool, UpdateChat.get_command u argument true = Ok NoCommand)
  /\ (forall (argument : bool) (t : pystr),
        payload_field update [str "text"] = Some (VStr t) ->
        UpdateChat.get_command u argument false
        = Ok (Name (VStr (slice t (offset + 1) (offset + length))))).
Proof.
  intros Hinit Hent Htype Hoff Hlen Hpos.
  destruct (UpdateChat_first_entity _ _ _ _ Hinit Hent)
    as (Hfirst & d & -> & Hmt).
  pose proof Htype as Htype'.
  apply field_key in Htype' as (d' & [= <-] & Hty).
  unfold dict_get in Hmt. rewrite Hty in Hmt.
  split.
  - intros argument.
    rewrite (get_command_bounds u (VDict d) offset length argument true
               Hmt Hfirst Hoff Hlen).
    cbv zeta. destruct (offset + 1 =? 1) eqn:E; [|reflexivity].
    apply Z.eqb_eq in E. lia.
  - intros argument t Htext.
    rewrite (get_command_bounds u (VDict d) offset length argument false
               Hmt Hfirst Hoff Hlen).
    rewrite (UpdateChat_text _ _ _ _ Hinit Htext).
    reflexivity.
Qed.

Lemma get_command_not_leading_witness :
  exists u,
    UpdateChat.init say_go None = Ok u
    /\ (forall argument : bool,
          UpdateChat.get_command u argument true = Ok NoCommand)
    /\ (forall argument : bool,
          UpdateChat.get_command u argument false
          = Ok (Name (VStr (str "go")))).
Proof.
  eexists. split; [reflexivity|].
  pose proof (get_command_not_leading say_go None _
                (VDict [(str "type", VStr (str "bot_command"));
                        (str "offset", VInt 4);
                        (str "length", VInt 3)])
                4 3 eq_refl eq_refl eq_refl eq_refl eq_refl eq_refl)
    as [Hlead Hany].
  split; [exact Hlead|].
  intros argument. apply (Hany argument (str "say /go foo")). reflexivity.
Defined.

(** C8. When the first entity is a bot command at offset 0 and the text
    after the command substring, text[length:], is empty or white space
    only, get_command with both flags set returns the command name paired
    with the empty string. *)
Theorem get_command_blank_argument
        (update : dict) (token : option pystr) (u : UpdateChat.t)
        (ent : value) (t : pystr) (length : Z) :
  UpdateChat.init update token = Ok u ->
  payload_field update [str "text"] = Some (VStr t) ->
  first_entity update = Some ent ->
  field [str "type"] ent = Some (VStr (str "bot_command")) ->
  field [str "offset"] ent = Some (VInt 0) ->
  field [str "length"] ent = Some (VInt length) ->
  forallb isspace (slice_from t length) = true ->
  UpdateChat.get_command u true true
  = Ok (NameArgument (VStr (slice t 1 length)) (VStr [])).
Proof.
  intros Hinit Htext Hent Htype Hoff Hlen Hblank.
  rewrite (get_command_leading _ _ _ _ _ _ Hinit Htext Hent Htype Hoff Hlen).
  rewrite (strip_all_space _ Hblank). reflexivity.
Qed.

Lemma get_command_blank_argument_witness :
  exists u,
    UpdateChat.init go_blank None = Ok u
    /\ UpdateChat.get_command u true true
       = Ok (NameArgument (VStr (str "go")) (VStr [])).
Proof.
  eexists. split; [reflexivity|].
  apply (get_command_blank_argument go_blank None _
           (VDict [(str "type", VStr (str "bot_command"));
                   (str "offset", VInt 0);
                   (str "length", VInt 3)])
           (str "/go   ") 3); reflexivity.
Defined.

(** ** The constructor of [UpdateChat] *)

(** C4. On a well-formed payload with at least two items the constructor
    reads chat_id and message_id from the nested [message] of the kind
    payload when the second key is "callback_query", and from the kind
    payload itself for every other kind. *)
Theorem chat_and_message_id_by_kind
        (update : dict) (token : option pystr)
        (first : pystr * value) (kind : pystr) (payload : value) (rest : dict) :
  update = first :: (kind, payload) :: rest ->
  well_formed update = true ->
  exists u,
    UpdateChat.init update token = Ok u
    /\ (kind = str "callback_query" ->
        UpdateChat.chat_id u
        = or_None (field [str "message"; str "chat"; str "id"] payload)
        /\ UpdateChat.message_id u
           = or_None (field [str "message"; str "message_id"] payload))
    /\ (kind <> str "callback_query" ->
        UpdateChat.chat_id u = or_None (field [str "chat"; str "id"] payload)
        /\ UpdateChat.message_id u = or_None (field [str "message_id"] payload)).
Proof.
  intros -> Hwf.
  destruct (UpdateChat_init_well_formed _ token Hwf)
    as (kind' & body & u & [= <- ->] & Hinit & _ & _ & Hids).
  exists u. split; [exact Hinit|].
  destruct (str_eqb kind (str "callback_query")) eqn:E.
  - apply str_eqb_eq in E. split; [intros _; exact Hids | congruence].
  - apply str_eqb_neq in E. split; [congruence | intros _; exact Hids].
Qed.

Lemma chat_and_message_id_by_kind_witness :
  (exists u,
      UpdateChat.init go_foo None = Ok u
      /\ UpdateChat.chat_id u = VInt 42 /\ UpdateChat.message_id u = VInt 5)
  /\ (exists u,
        UpdateChat.init pressed None = Ok u
        /\ UpdateChat.chat_id u = VInt 42 /\ UpdateChat.message_id u = VInt 9).
Proof.
  split.
  - destruct (chat_and_message_id_by_kind go_foo None _ _ _ _ eq_refl eq_refl)
      as (u & Hinit & _ & Hother).
    exists u. split; [exact Hinit|]. apply Hother. discriminate.
  - destruct (chat_and_message_id_by_kind pressed None _ _ _ _ eq_refl eq_refl)
      as (u & Hinit & Hcallback & _).
    exists u. split; [exact Hinit|]. apply Hcallback. reflexivity.
Defined.

(** The constructor never raises one of the specification's error kinds. *)
Lemma UpdateChat_init_builtin_exn (update : dict) (token : option pystr) (e : exn) :
  UpdateChat.init update token = Raise e ->
  e = IndexError \/ e = KeyError \/ e = AttributeError \/ e = TypeError.
Proof.
  unfold UpdateChat.init, items_nth.
  destruct (nth_error update 1) as [[kind payload]|];
    [|intros [= <-]; auto].
  cbn [bind fst snd].
  repeat match goal with
    | |- context [py_get ?x ?k ?d] =>
        let r := fresh "r" in
        destruct (py_get x k d) as [r|] eqn:?;
        [ cbn [bind] | match goal with
                       | H : py_get x k d = Raise _ |- _ =>
                           destruct x; simpl in H; try discriminate H;
                           injection H as <-; cbn [bind];
                           intros [= <-]; auto
                       end ]
    | |- context [py_first ?x] =>
        let r := fresh "r" in
        destruct (py_first x) as [r|] eqn:?;
        [ cbn [bind] | match goal with
                       | H : py_first x = Raise _ |- _ =>
                           cbn [bind]; intros [= <-];
                           destruct x as [| | |[|? ?]|[|? ?]|]; simpl in H;
                           try discriminate H; injection H as <-; auto
                       end ]
    | |- context [py_item ?x ?k] =>
        let r := fresh "r" in
        destruct (py_item x k) as [r|] eqn:?;
        [ cbn [bind] | match goal with
                       | H : py_item x k = Raise _ |- _ =>
                           cbn [bind]; intros [= <-];
                           destruct x; simpl in H; try discriminate H;
                           try (injection H as <-; auto);
                           match type of H with
                           | context [lookup ?a ?b] =>
                               destruct (lookup a b); try discriminate H;
                               injection H as <-; auto
                           end
                       end ]
    | |- context [if ?b then _ else _] => destruct b
    end;
    discriminate.
Qed.

(** C5, as stated, fails: on a payload without a second item the
    constructor raises IndexError, not a MalformedPayload error. *)
Lemma no_second_key_not_MalformedPayload :
  (List.length only_update_id < 2)%nat
  /\ UpdateChat.init only_update_id None = Raise IndexError
  /\ UpdateChat.init only_update_id None <> Raise MalformedPayload.
Proof.
  split; [simpl; lia|]. split; [reflexivity | discriminate].
Qed.

(** C5, amended. On every payload with fewer than two items the constructor
    does not complete: [update_tuple[1]] raises IndexError. *)
Theorem no_second_key_IndexError (update : dict) (token : option pystr) :
  (List.length update < 2)%nat ->
  UpdateChat.init update token = Raise IndexError.
Proof.
  intros Hlen. unfold UpdateChat.init, items_nth.
  destruct update as [|first [|second rest]]; try reflexivity.
  simpl in Hlen. lia.
Qed.

Lemma no_second_key_IndexError_witness :
  UpdateChat.init only_update_id None = Raise IndexError.
Proof.
  apply (no_second_key_IndexError only_update_id None). simpl. lia.
Defined.

(** The defaulting lookups cover a missing key only: an [entities] that is
    there and empty raises at [entities[0]]. *)
Example empty_entities_IndexError :
  UpdateChat.init empty_entities None = Raise IndexError.
Proof. reflexivity. Qed.

(** C9, as stated, fails: the payload has two items, its second key is not
    "callback_query", and the constructor raises at
    [.get("from", {}).get("id")], the string having no [get]. *)
Lemma constructor_raises_on_from_string :
  (2 <= List.length from_a_name)%nat
  /\ option_map fst (nth_error from_a_name 1) = Some (str "message")
  /\ str "message" <> str "callback_query"
  /\ UpdateChat.init from_a_name None = Raise AttributeError
  /\ ~ exists u, UpdateChat.init from_a_name None = Ok u.
Proof.
  split; [simpl; lia|]. split; [reflexivity|]. split; [discriminate|].
  split; [reflexivity|]. intros [u Hu]. discriminate Hu.
Qed.

(** C9, amended. On a payload with at least two items whose second key is
    not "callback_query" and whose kind payload is a mapping in which
    [from] and [chat], when present, are mappings and [entities], when
    present, is a list that starts with a mapping, the constructor
    succeeds; from_id, text, chat_id and message_id are the nested fields,
    and None when the field is missing. *)
Theorem constructor_succeeds_with_defaults
        (update : dict) (token : option pystr)
        (first : pystr * value) (kind : pystr) (payload : value) (rest : dict) :
  update = first :: (kind, payload) :: rest ->
  kind <> str "callback_query" ->
  well_formed update = true ->
  exists u,
    UpdateChat.init update token = Ok u
    /\ UpdateChat.from_id u = or_None (field [str "from"; str "id"] payload)
    /\ UpdateChat.text u = or_None (field [str "text"] payload)
    /\ UpdateChat.chat_id u = or_None (field [str "chat"; str "id"] payload)
    /\ UpdateChat.message_id u = or_None (field [str "message_id"] payload).
Proof.
  intros -> Hkind Hwf.
  destruct (UpdateChat_init_well_formed _ token Hwf)
    as (kind' & body & u & [= <- ->] & Hinit & Hfrom & Htext & Hids).
  apply str_eqb_neq in Hkind. rewrite Hkind in Hids.
  exists u. tauto.
Qed.

Lemma constructor_succeeds_with_defaults_witness :
  exists u,
    UpdateChat.init bare_text None = Ok u
    /\ UpdateChat.from_id u = VNone
    /\ UpdateChat.text u = VStr (str "hi")
    /\ UpdateChat.chat_id u = VNone
    /\ UpdateChat.message_id u = VNone.
Proof.
  apply (constructor_succeeds_with_defaults bare_text None
           _ _ _ _ eq_refl);
    [discriminate | reflexivity].
Defined.

(** ** The handle of a sent message *)

(** C10. The handle's sent_text is the message_id of the response payload:
    it equals the handle's message_id, both being the [message_id] field of
    the second item of the response (None when missing). *)
Theorem sent_text_is_message_id
        (token : option pystr) (sent_msg : dict) (s : SentChat.t) :
  SentChat.init token sent_msg = Ok s ->
  SentChat.sent_text s = SentChat.message_id s
  /\ SentChat.sent_text s
     = or_None (payload_field sent_msg [str "message_id"]).
Proof.
  unfold SentChat.init, items_nth, payload_field. intros H.
  destruct (nth_error sent_msg 1) as [[kind payload]|]; [|discriminate].
  cbn [bind fst snd] in H.
  invert_calls. cbn [SentChat.sent_text SentChat.message_id field].
  unfold dict_get. split; [reflexivity|].
  match goal with
  | |- context [lookup ?k ?d] => destruct (lookup k d)
  end; reflexivity.
Qed.

Lemma sent_text_is_message_id_witness :
  exists s,
    SentChat.init None sent_hi = Ok s
    /\ SentChat.sent_text s = SentChat.message_id s
    /\ SentChat.sent_text s = VInt 9.
Proof.
  eexists. split; [reflexivity|].
  apply (sent_text_is_message_id None sent_hi). reflexivity.
Defined.

(** ** The client *)

(** C6, as stated, fails: with no token in the environment and none
    passed, the constructor completes. *)
Lemma no_token_not_MissingCredential :
  Bot.BOT_TOKEN [] = None
  /\ Bot.new [] None []
     = (Ok {| Bot.__bot_token := None;
              Bot.__base_url := str "https://api.telegram.org/botNone" |}, [])
  /\ fst (Bot.new [] None []) <> Raise MissingCredential.
Proof.
  split; [reflexivity|]. split; [reflexivity | discriminate].
Qed.

(** C6, amended. With no token in the environment, constructing a client
    without a token (the argument left out, or None passed) completes: the
    token stored is None, the base URL ends in "botNone", and no request is
    made. *)
Theorem no_token_client_built (environ : list (pystr * pystr)) (tr : trace) :
  Bot.BOT_TOKEN environ = None ->
  Bot.new environ None tr
  = (Ok {| Bot.__bot_token := None;
           Bot.__base_url := str "https://api.telegram.org/botNone" |}, tr)
  /\ Bot.new environ (Some None) tr = Bot.new environ None tr.
Proof.
  intros Henv. unfold Bot.new, io_ret. rewrite Henv. split; reflexivity.
Qed.

Lemma no_token_client_built_witness :
  Bot.new [(str "HOME", str "/root")] None []
  = (Ok {| Bot.__bot_token := None;
           Bot.__base_url := str "https://api.telegram.org/botNone" |}, []).
Proof.
  apply (no_token_client_built [(str "HOME", str "/root")] []). reflexivity.
Defined.

(** With the defaults of the signature the two encoded fields are the
    string "{}" and the parse mode is "HTML". *)
Example send_message_data_defaults :
  Bot.send_message_data (VInt 42) (VStr (str "hi")) Bot.no_options
  = [(str "chat_id", VInt 42);
     (str "parse_mode", VStr (str "HTML"));
     (str "text", VStr (str "hi"));
     (str "allow_sending_without_reply", VBool false);
     (str "disable_web_page_preview", VBool false);
     (str "reply_to_message_id", VNone);
     (str "reply_markup", VStr (str "{}"));
     (str "disable_notification", VBool false);
     (str "protect_content", VBool false);
     (str "message_thread_id", VNone);
     (str "entities", VStr (str "{}"))].
Proof. reflexivity. Qed.


(** * Further properties of the module *)

(** ** The constructor of [UpdateChat], its domain and its errors *)

(** The constructor succeeds exactly on the payloads that have a second
    item whose value is a mapping with [from], [chat] and [entities] of the
    types it relies on (and a [message] mapping for a callback query). *)
Theorem UpdateChat_init_succeeds_iff (update : dict) (token : option pystr) :
  (exists u, UpdateChat.init update token = Ok u) <-> well_formed update = true.
Proof.
  split.
  - intros [u Hu]. exact (UpdateChat_init_Ok_well_formed _ _ _ Hu).
  - intros Hwf.
    destruct (UpdateChat_init_well_formed update token Hwf)
      as (kind & body & u & _ & Hinit & _).
    eauto.
Qed.

(** A callback query whose payload has no [message] raises KeyError: the
    subscript [["message"]] has no default, unlike the other lookups. *)
Theorem callback_query_without_message_KeyError
        (update : dict) (token : option pystr)
        (first : pystr * value) (body rest : dict) :
  update = first :: (str "callback_query", VDict body) :: rest ->
  mapping_if_present (lookup (str "from") body) = true ->
  entities_if_present (lookup (str "entities") body) = true ->
  lookup (str "message") body = None ->
  UpdateChat.init update token = Raise KeyError.
Proof.
  intros -> Hfrom Hents Hmsg.
  unfold UpdateChat.init, items_nth.
  cbn [nth_error bind fst snd py_get]. unfold dict_get.
  destruct (lookup (str "from") body) as [[| | | | |sender]|];
    try discriminate Hfrom;
    (destruct (lookup (str "entities") body)
       as [[| | | |[|[| | | | |e0] es]|]|];
     try discriminate Hents);
    cbn [bind py_get py_first]; unfold dict_get;
    rewrite str_eqb_refl; cbn [bind py_item]; rewrite Hmsg; reflexivity.
Qed.

Lemma callback_query_without_message_KeyError_witness :
  UpdateChat.init pressed_no_message None = Raise KeyError.
Proof.
  apply (callback_query_without_message_KeyError pressed_no_message None
           _ _ _ eq_refl); reflexivity.
Defined.

(** When the value of the second item is not a mapping the constructor
    raises AttributeError, whatever the kind. *)
Theorem kind_payload_not_mapping_AttributeError
        (update : dict) (token : option pystr)
        (first : pystr * value) (kind : pystr) (payload : value) (rest : dict) :
  update = first :: (kind, payload) :: rest ->
  mapping_if_present (Some payload) = false ->
  UpdateChat.init update token = Raise AttributeError.
Proof.
  intros -> Hp. unfold UpdateChat.init, items_nth.
  cbn [nth_error bind fst snd].
  destruct payload; try reflexivity. discriminate Hp.
Qed.

Lemma kind_payload_not_mapping_AttributeError_witness :
  UpdateChat.init [(str "update_id", VInt 1); (str "ok", VBool true)] None
  = Raise AttributeError.
Proof.
  apply (kind_payload_not_mapping_AttributeError _ None _ _ _ _ eq_refl).
  reflexivity.
Defined.

(** For every kind, callback queries included, update_type is the second
    key and from_id and text are read from the kind payload itself (not
    from a nested [message]). *)
Theorem sender_and_text_from_kind_payload
        (update : dict) (token : option pystr)
        (first : pystr * value) (kind : pystr) (payload : value) (rest : dict) :
  update = first :: (kind, payload) :: rest ->
  well_formed update = true ->
  exists u,
    UpdateChat.init update token = Ok u
    /\ UpdateChat.update_type u = kind
    /\ UpdateChat.from_id u = or_None (field [str "from"; str "id"] payload)
    /\ UpdateChat.text u = or_None (field [str "text"] payload).
Proof.
  intros -> Hwf.
  destruct (UpdateChat_init_well_formed _ token Hwf)
    as (kind' & body & u & [= <- ->] & Hinit & Hfrom & Htext & _).
  exists u. repeat split; try assumption.
  destruct (UpdateChat_init_fields _ _ _ Hinit)
    as (k & b & e & [= <- _] & _ & Hk & _).
  exact Hk.
Qed.

Lemma sender_and_text_from_kind_payload_witness :
  exists u,
    UpdateChat.init pressed None = Ok u
    /\ UpdateChat.update_type u = str "callback_query"
    /\ UpdateChat.from_id u = VInt 7
    /\ UpdateChat.text u = VNone.
Proof.
  apply (sender_and_text_from_kind_payload pressed None _ _ _ _ eq_refl).
  reflexivity.
Defined.

(** ** The command extractor on every flag and entity *)

Lemma py_eq_str_false (x : value) (s : pystr) :
  x <> VStr s -> py_eq_str x s = false.
Proof.
  intros H. destruct x; try reflexivity. simpl.
  apply str_eqb_neq. intros ->. apply H. reflexivity.
Qed.

(** The message type is the [type] of the first entity ("text" when the
    entity has none); get_command looks at that entity only, so when it is
    not a bot command the result is None for all flags, whatever entities
    follow. *)
Theorem message_type_is_first_entity_type
        (update : dict) (token : option pystr) (u : UpdateChat.t) (ent : value) :
  UpdateChat.init update token = Ok u ->
  first_entity update = Some ent ->
  UpdateChat.message_type u
  = match field [str "type"] ent with
    | Some ty => ty
    | None => VStr (str "text")
    end
  /\ (UpdateChat.message_type u <> VStr (str "bot_command") ->
      forall argument only_start : bool,
        UpdateChat.get_command u argument only_start = Ok NoCommand).
Proof.
  intros Hinit Hent.
  destruct (UpdateChat_first_entity _ _ _ _ Hinit Hent)
    as (_ & d & -> & Hmt).
  split.
  - rewrite Hmt. cbn [field]. unfold dict_get.
    destruct (lookup (str "type") d); reflexivity.
  - intros Hne argument only_start. unfold UpdateChat.get_command.
    rewrite (py_eq_str_false _ _ Hne). reflexivity.
Qed.

Lemma message_type_is_first_entity_type_witness :
  exists u,
    UpdateChat.init mention_then_command None = Ok u
    /\ UpdateChat.message_type u = VStr (str "mention")
    /\ forall argument only_start : bool,
        UpdateChat.get_command u argument only_start = Ok NoCommand.
Proof.
  eexists. split; [reflexivity|].
  destruct (message_type_is_first_entity_type mention_then_command None _
              (VDict [(str "type", VStr (str "mention"));
                      (str "offset", VInt 0);
                      (str "length", VInt 4)]) eq_refl eq_refl)
    as [Hmt Hnone].
  split; [exact Hmt|]. apply Hnone. discriminate.
Defined.

(** The result of get_command on a bot command entity with integer offset
    and length and a string text, for all flags: None for a command that is
    not at offset 0 when only_start is set, otherwise the name
    text[offset+1 : offset+length], paired with the stripped rest of the
    text only when both flags are set. *)
Theorem get_command_on_command_entity
        (update : dict) (token : option pystr) (u : UpdateChat.t)
        (ent : value) (t : pystr) (offset length : Z)
        (argument only_start : bool) :
  UpdateChat.init update token = Ok u ->
  payload_field update [str "text"] = Some (VStr t) ->
  first_entity update = Some ent ->
  field [str "type"] ent = Some (VStr (str "bot_command")) ->
  field [str "offset"] ent = Some (VInt offset) ->
  field [str "length"] ent = Some (VInt length) ->
  UpdateChat.get_command u argument only_start
  = Ok (let name := VStr (slice t (offset + 1) (offset + length)) in
        if only_start then
          if offset =? 0 then
            if argument then
              NameArgument name (VStr (strip (slice_from t (offset + length))))
            else Name name
          else NoCommand
        else Name name).
Proof.
  intros Hinit Htext Hent Htype Hoff Hlen.
  destruct (UpdateChat_first_entity _ _ _ _ Hinit Hent)
    as (Hfirst & d & -> & Hmt).
  pose proof Htype as Hty.
  apply field_key in Hty as (d' & [= <-] & Hty).
  unfold dict_get in Hmt. rewrite Hty in Hmt.
  rewrite (get_command_bounds u (VDict d) offset length argument only_start
             Hmt Hfirst Hoff Hlen).
  rewrite (UpdateChat_text _ _ _ _ Hinit Htext).
  cbv zeta.
  replace (offset + 1 =? 1) with (offset =? 0)
    by (destruct (offset =? 0) eqn:E1, (offset + 1 =? 1) eqn:E2;
        try reflexivity;
        [ apply Z.eqb_eq in E1; apply Z.eqb_neq in E2; lia
        | apply Z.eqb_neq in E1; apply Z.eqb_eq in E2; lia ]).
  destruct only_start, (offset =? 0), argument; reflexivity.
Qed.

Lemma get_command_on_command_entity_witness :
  exists u,
    UpdateChat.init go_foo None = Ok u
    /\ UpdateChat.get_command u false true = Ok (Name (VStr (str "go")))
    /\ UpdateChat.get_command u true false = Ok (Name (VStr (str "go"))).
Proof.
  eexists. split; [reflexivity|].
  split.
  - apply (get_command_on_command_entity go_foo None _
             (VDict [(str "type", VStr (str "bot_command"));
                     (str "offset", VInt 0);
                     (str "length", VInt 3)])
             (str "/go foo") 0 3 false true); reflexivity.
  - apply (get_command_on_command_entity go_foo None _
             (VDict [(str "type", VStr (str "bot_command"));
                     (str "offset", VInt 0);
                     (str "length", VInt 3)])
             (str "/go foo") 0 3 true false); reflexivity.
Defined.

Ltac case_calls :=
  repeat match goal with
    | |- context [bind ?c _] =>
        lazymatch c with
        | bind _ _ => fail
        | _ => destruct c; cbn [bind]
        end
    | |- context [if ?b then _ else _] =>
        lazymatch b with
        | context [if _ then _ else _] => fail
        | _ => destruct b
        end
    end.

(** With only_start unset the argument flag is ignored, on every object
    and also when the call raises, and the result is never a pair. *)
Theorem get_command_anywhere_ignores_argument
        (u : UpdateChat.t) (argument : bool) :
  UpdateChat.get_command u argument false = UpdateChat.get_command u false false
  /\ forall name rest : value,
      UpdateChat.get_command u argument false <> Ok (NameArgument name rest).
Proof.
  split.
  - unfold UpdateChat.get_command. reflexivity.
  - intros name rest. unfold UpdateChat.get_command.
    case_calls; discriminate.
Qed.

(** The two values of the argument flag agree on the name: when the call
    with both flags set returns a pair, the call without the argument flag
    returns its first component. *)
Theorem get_command_name_agrees
        (u : UpdateChat.t) (name rest : value) :
  UpdateChat.get_command u true true = Ok (NameArgument name rest) ->
  UpdateChat.get_command u false true = Ok (Name name).
Proof.
  unfold UpdateChat.get_command. cbn [negb].
  case_calls; try discriminate.
  intros [= -> _]. reflexivity.
Qed.

Lemma get_command_name_agrees_witness :
  exists u,
    UpdateChat.init go_foo None = Ok u
    /\ UpdateChat.get_command u false true = Ok (Name (VStr (str "go"))).
Proof.
  eexists. split; [reflexivity|].
  apply (get_command_name_agrees _ (VStr (str "go")) (VStr (str "foo"))).
  reflexivity.
Defined.

(** ** What [strip] removes *)

Lemma lstrip_decompose (s : pystr) :
  exists w, s = w ++ lstrip s /\ forallb isspace w = true.
Proof.
  induction s as [|c s (w & E & Hw)]; [exists []; auto|].
  simpl. destruct (isspace c) eqn:Hc.
  - exists (c :: w). simpl. rewrite Hc, Hw. split; [congruence | reflexivity].
  - exists []. auto.
Qed.

Lemma lstrip_nonspace (s r : pystr) (c : N) :
  lstrip s = c :: r -> isspace c = false.
Proof.
  induction s as [|x s IH]; simpl; [discriminate|].
  destruct (isspace x) eqn:Hx; [exact IH|].
  intros [= <- _]. exact Hx.
Qed.

Lemma forallb_rev {A} (f : A -> bool) (l : list A) :
  forallb f l = true -> forallb f (rev l) = true.
Proof.
  rewrite !forallb_forall. intros H x Hx. apply H, in_rev, Hx.
Qed.

Lemma strip_decompose (s : pystr) :
  exists w1 w2,
    s = w1 ++ strip s ++ w2
    /\ forallb isspace w1 = true /\ forallb isspace w2 = true.
Proof.
  destruct (lstrip_decompose s) as (w1 & E1 & H1).
  destruct (lstrip_decompose (rev (lstrip s))) as (w2 & E2 & H2).
  exists w1, (rev w2). unfold strip, rstrip.
  split; [|split; [exact H1 | apply forallb_rev, H2]].
  rewrite <- rev_app_distr, <- E2, rev_involutive. exact E1.
Qed.

Lemma trimmed_strip (s : pystr) : trimmed (strip s) = true.
Proof.
  unfold strip, rstrip.
  destruct (lstrip_decompose (rev (lstrip s))) as (w & E & _).
  destruct (lstrip (rev (lstrip s))) as [|c r] eqn:Er; [reflexivity|].
  pose proof (lstrip_nonspace _ _ _ Er) as Hc.
  apply (f_equal (@rev N)) in E.
  rewrite rev_involutive, rev_app_distr in E.
  destruct (rev (c :: r)) as [|h tl] eqn:Eh.
  - apply (f_equal (@List.length N)) in Eh.
    rewrite length_rev in Eh. discriminate Eh.
  - simpl in E. pose proof (lstrip_nonspace _ _ _ E) as Hh.
    unfold trimmed. rewrite Hh. rewrite <- Eh. simpl rev.
    rewrite last_last, Hc. reflexivity.
Qed.

(** Whenever get_command returns a pair, both flags were set and the
    argument is a string that neither starts nor ends with white space. *)
Theorem get_command_argument_trimmed
        (u : UpdateChat.t) (argument only_start : bool) (name rest : value) :
  UpdateChat.get_command u argument only_start = Ok (NameArgument name rest) ->
  argument = true /\ only_start = true
  /\ exists s, rest = VStr s /\ trimmed s = true.
Proof.
  unfold UpdateChat.get_command.
  destruct (negb (py_eq_str (UpdateChat.message_type u) (str "bot_command")));
    [discriminate|].
  intros H. do 6 (apply bind_Ok in H as (? & _ & H)).
  destruct only_start;
    [|apply bind_Ok in H as (? & _ & H); discriminate H].
  match type of H with
  | context [if ?b then _ else _] => destruct b
  end; [|discriminate H].
  destruct argument; cbn [negb] in H;
    [|apply bind_Ok in H as (? & _ & H); discriminate H].
  apply bind_Ok in H as (? & _ & H).
  apply bind_Ok in H as (? & _ & H).
  apply bind_Ok in H as (? & Hs & H).
  injection H as _ <-.
  match type of Hs with
  | py_strip ?x = _ => destruct x; try discriminate Hs
  end.
  simpl in Hs. injection Hs as <-.
  repeat split. eexists. split; [reflexivity | apply trimmed_strip].
Qed.

Lemma get_command_argument_trimmed_witness :
  exists u,
    UpdateChat.init go_foo None = Ok u
    /\ (true = true /\ true = true
        /\ exists s, VStr (str "foo") = VStr s /\ trimmed s = true).
Proof.
  evar (u : UpdateChat.t).
  assert (Hu : UpdateChat.init go_foo None = Ok u) by (unfold u; reflexivity).
  exists u. split; [exact Hu|].
  apply (get_command_argument_trimmed u true true
           (VStr (str "go")) (VStr (str "foo"))).
  reflexivity.
Defined.

(** For a command at offset 0 whose length lies within the text, the name
    has length - 1 characters, and the text is its first character, the
    name, white space, the argument, white space: get_command with both
    flags set drops nothing but the first character and white space. *)
Theorem get_command_reassembles
        (update : dict) (token : option pystr) (u : UpdateChat.t)
        (ent : value) (t : pystr) (length : Z) :
  UpdateChat.init update token = Ok u ->
  payload_field update [str "text"] = Some (VStr t) ->
  first_entity update = Some ent ->
  field [str "type"] ent = Some (VStr (str "bot_command")) ->
  field [str "offset"] ent = Some (VInt 0) ->
  field [str "length"] ent = Some (VInt length) ->
  1 <= length <= Z.of_nat (List.length t) ->
  exists name arg w1 w2,
    UpdateChat.get_command u true true
    = Ok (NameArgument (VStr name) (VStr arg))
    /\ t = firstn 1 t ++ name ++ w1 ++ arg ++ w2
    /\ Z.of_nat (List.length name) = length - 1
    /\ forallb isspace w1 = true /\ forallb isspace w2 = true.
Proof.
  intros Hinit Htext Hent Htype Hoff Hlen Hrange.
  destruct (strip_decompose (slice_from t length)) as (w1 & w2 & E & H1 & H2).
  exists (slice t 1 length), (strip (slice_from t length)), w1, w2.
  split; [exact (get_command_leading _ _ _ _ _ _ Hinit Htext Hent Htype Hoff Hlen)|].
  assert (Hs : slice t 1 length
               = firstn (Z.to_nat (length - 1)) (skipn 1 t)).
  { unfold slice. rewrite !adjust_index_inside by lia. reflexivity. }
  assert (Hf : slice_from t length
               = skipn (Z.to_nat (length - 1)) (skipn 1 t)).
  { unfold slice_from. rewrite adjust_index_inside by lia.
    rewrite skipn_skipn. f_equal. lia. }
  split; [|split; [|split; assumption]].
  - rewrite <- E, Hs, Hf, firstn_skipn, firstn_skipn. reflexivity.
  - rewrite Hs, length_firstn, length_skipn. lia.
Qed.

Lemma get_command_reassembles_witness :
  exists u name arg w1 w2,
    UpdateChat.init go_blank None = Ok u
    /\ UpdateChat.get_command u true true
       = Ok (NameArgument (VStr name) (VStr arg))
    /\ str "/go   " = firstn 1 (str "/go   ") ++ name ++ w1 ++ arg ++ w2
    /\ Z.of_nat (List.length name) = 3 - 1
    /\ forallb isspace w1 = true /\ forallb isspace w2 = true.
Proof.
  evar (u : UpdateChat.t).
  assert (Hu : UpdateChat.init go_blank None = Ok u) by (unfold u; reflexivity).
  assert (Hr : 1 <= 3 <= Z.of_nat (List.length (str "/go   ")))
    by (simpl; lia).
  destruct (get_command_reassembles go_blank None u
              (VDict [(str "type", VStr (str "bot_command"));
                      (str "offset", VInt 0);
                      (str "length", VInt 3)])
              (str "/go   ") 3 Hu eq_refl eq_refl eq_refl eq_refl eq_refl Hr)
    as (name & arg & w1 & w2 & H).
  exists u, name, arg, w1, w2. split; [exact Hu | exact H].
Defined.

(** A bot command entity on a payload that has no text (or a null text)
    makes get_command raise TypeError wherever it slices the text: always
    with only_start unset, and at offset 0 with only_start set. *)
Theorem get_command_without_text_TypeError
        (update : dict) (token : option pystr) (u : UpdateChat.t)
        (ent : value) (offset length : Z) :
  UpdateChat.init update token = Ok u ->
  or_None (payload_field update [str "text"]) = VNone ->
  first_entity update = Some ent ->
  field [str "type"] ent = Some (VStr (str "bot_command")) ->
  field [str "offset"] ent = Some (VInt offset) ->
  field [str "length"] ent = Some (VInt length) ->
  (forall argument : bool,
      UpdateChat.get_command u argument false = Raise TypeError)
  /\ (offset = 0 ->
      forall argument : bool,
        UpdateChat.get_command u argument true = Raise TypeError).
Proof.
  intros Hinit Htext Hent Htype Hoff Hlen.
  destruct (UpdateChat_first_entity _ _ _ _ Hinit Hent)
    as (Hfirst & d & -> & Hmt).
  pose proof Htype as Hty.
  apply field_key in Hty as (d' & [= <-] & Hty).
  unfold dict_get in Hmt. rewrite Hty in Hmt.
  assert (Ht : UpdateChat.text u = VNone).
  { destruct (UpdateChat_init_fields _ _ _ Hinit)
      as (kind & body & e0 & Hk & _ & _ & Ht & _).
    unfold payload_field in Htext. rewrite Hk in Htext.
    cbn [field] in Htext. rewrite Ht. unfold dict_get.
    destruct (lookup (str "text") body); [exact Htext | reflexivity]. }
  split.
  - intros argument.
    rewrite (get_command_bounds u (VDict d) offset length argument false
               Hmt Hfirst Hoff Hlen), Ht.
    reflexivity.
  - intros -> argument.
    rewrite (get_command_bounds u (VDict d) 0 length argument true
               Hmt Hfirst Hoff Hlen), Ht.
    destruct argument; reflexivity.
Qed.

Lemma get_command_without_text_TypeError_witness :
  exists u,
    UpdateChat.init command_no_text None = Ok u
    /\ (forall argument : bool,
          UpdateChat.get_command u argument false = Raise TypeError)
    /\ (forall argument : bool,
          UpdateChat.get_command u argument true = Raise TypeError).
Proof.
  evar (u : UpdateChat.t).
  assert (Hu : UpdateChat.init command_no_text None = Ok u)
    by (unfold u; reflexivity).
  destruct (get_command_without_text_TypeError command_no_text None u
              (VDict [(str "type", VStr (str "bot_command"));
                      (str "offset", VInt 0);
                      (str "length", VInt 3)])
              0 3 Hu eq_refl eq_refl eq_refl eq_refl eq_refl)
    as [Hany Hlead].
  exists u. split; [exact Hu|]. split; [exact Hany | exact (Hlead eq_refl)].
Defined.

Lemma slice_beyond {A} (l : list A) (lo hi : Z) :
  Z.of_nat (List.length l) <= lo -> slice l lo hi = [].
Proof.
  intros H. unfold slice.
  replace (adjust_index (Z.of_nat (List.length l)) lo)
    with (Z.of_nat (List.length l))
    by (unfold adjust_index; destruct (lo <? 0) eqn:E;
        [apply Z.ltb_lt in E; lia | lia]).
  rewrite Nat2Z.id, skipn_all. apply firstn_nil.
Qed.

(** An entity that starts at or beyond the last character of the text does
    not make get_command fail: with only_start unset the name is the empty
    string. *)
Theorem get_command_entity_beyond_text
        (update : dict) (token : option pystr) (u : UpdateChat.t)
        (ent : value) (t : pystr) (offset length : Z) (argument : bool) :
  UpdateChat.init update token = Ok u ->
  payload_field update [str "text"] = Some (VStr t) ->
  first_entity update = Some ent ->
  field [str "type"] ent = Some (VStr (str "bot_command")) ->
  field [str "offset"] ent = Some (VInt offset) ->
  field [str "length"] ent = Some (VInt length) ->
  Z.of_nat (List.length t) <= offset + 1 ->
  UpdateChat.get_command u argument false = Ok (Name (VStr [])).
Proof.
  intros Hinit Htext Hent Htype Hoff Hlen Hbeyond.
  destruct (UpdateChat_first_entity _ _ _ _ Hinit Hent)
    as (Hfirst & d & -> & Hmt).
  pose proof Htype as Hty.
  apply field_key in Hty as (d' & [= <-] & Hty).
  unfold dict_get in Hmt. rewrite Hty in Hmt.
  rewrite (get_command_bounds u (VDict d) offset length argument false
             Hmt Hfirst Hoff Hlen).
  rewrite (UpdateChat_text _ _ _ _ Hinit Htext).
  cbv zeta. cbn [py_slice bind].
  rewrite (slice_beyond t _ _ Hbeyond). reflexivity.
Qed.

Lemma get_command_entity_beyond_text_witness :
  exists u,
    UpdateChat.init stale_entity None = Ok u
    /\ UpdateChat.get_command u true false = Ok (Name (VStr [])).
Proof.
  eexists. split; [reflexivity|].
  apply (get_command_entity_beyond_text stale_entity None _
           (VDict [(str "type", VStr (str "bot_command"));
                   (str "offset", VInt 5);
                   (str "length", VInt 3)])
           (str "hi") 5 3 true); try reflexivity.
  simpl. lia.
Defined.

(** ** Sending, and the handle of the sent message *)

Lemma SentChat_init_fields (token : option pystr) (sent_msg : dict)
      (s : SentChat.t) :
  SentChat.init token sent_msg = Ok s ->
  SentChat.bot s = Bot.init token
  /\ SentChat.chat_id s
     = or_None (payload_field sent_msg [str "chat"; str "id"])
  /\ SentChat.message_id s
     = or_None (payload_field sent_msg [str "message_id"]).
Proof.
  unfold SentChat.init, items_nth, payload_field. intros H.
  destruct (nth_error sent_msg 1) as [[kind payload]|]; [|discriminate].
  cbn [bind fst snd] in H.
  invert_calls. cbn [SentChat.bot SentChat.chat_id SentChat.message_id field].
  split; [reflexivity|].
  match goal with
  | Hc : dict_get ?b (str "chat") _ = VDict _ |- _ =>
      unfold dict_get in Hc |- *;
      destruct (lookup (str "chat") b) as [c|];
      [subst c | injection Hc as <-]
  end.
  - split.
    + match goal with
      | |- context [lookup ?k ?d] => destruct (lookup k d)
      end; reflexivity.
    + match goal with
      | |- context [lookup ?k ?d] => destruct (lookup k d)
      end; reflexivity.
  - split; [reflexivity|].
    match goal with
    | |- context [lookup ?k ?d] => destruct (lookup k d)
    end; reflexivity.
Qed.

(** The constructor of the handle succeeds exactly on the responses that
    have a second item whose value is a mapping with [from] and [chat],
    when present, mappings. *)
Theorem SentChat_init_succeeds_iff (token : option pystr) (sent_msg : dict) :
  (exists s, SentChat.init token sent_msg = Ok s)
  <-> response_well_formed sent_msg = true.
Proof.
  unfold SentChat.init, items_nth, response_well_formed.
  destruct (nth_error sent_msg 1) as [[kind [| | | | |body]]|];
    cbn [bind fst snd py_get];
    try (split; [intros [? Hraise]; discriminate Hraise | discriminate]).
  unfold dict_get.
  destruct (lookup (str "from") body) as [[| | | | |sender]|];
    destruct (lookup (str "chat") body) as [[| | | | |chat]|];
    cbn [bind py_get mapping_if_present andb];
    try (split; [intros [? Hraise]; discriminate Hraise | discriminate]);
    (split; [reflexivity | intros _; eexists; reflexivity]).
Qed.

(** After a send that returned a handle, editing or deleting through the
    handle posts one request to the same bot, addressed by the chat id and
    message id of the response to the send. *)
Theorem send_then_edit_or_delete
        (remote : trace -> request -> result value) (token : option pystr)
        (chat_id text : value) (o : Bot.options) (tr tr' : trace)
        (s : SentChat.t) (new_text : value) :
  Client.send_message remote (Bot.init token) chat_id text o tr = (Ok s, tr') ->
  exists response,
    remote tr (send_request token chat_id text o) = Ok (VDict response)
    /\ tr' = tr ++ [send_request token chat_id text o]
    /\ SentChat.edit_message_text remote s new_text tr'
       = (let rq :=
            {| url := Bot.__base_url (Bot.init token) ++ str "/editMessageText";
               json :=
                 VDict
                   [(str "chat_id",
                      or_None (payload_field response [str "chat"; str "id"]));
                    (str "message_id",
                      or_None (payload_field response [str "message_id"]));
                    (str "text", new_text);
                    (str "parse_mode", VStr (str "HTML"))] |} in
          (remote tr' rq, tr' ++ [rq]))
    /\ SentChat.delete_message remote s tr'
       = (let rq :=
            {| url := Bot.__base_url (Bot.init token) ++ str "/deleteMessage";
               json :=
                 VDict
                   [(str "chat_id",
                      or_None (payload_field response [str "chat"; str "id"]));
                    (str "message_id",
                      or_None (payload_field response [str "message_id"]))] |} in
          (remote tr' rq, tr' ++ [rq])).
Proof.
  unfold Client.send_message, io_bind, requests_post, io_ret.
  fold (send_request token chat_id text o).
  destruct (remote tr (send_request token chat_id text o))
    as [[| | | | |response]|e] eqn:Er; cbn [bind py_items];
    try (intros [= ]; fail).
  intros [= Hs <-].
  exists response. split; [reflexivity|]. split; [reflexivity|].
  change (Bot.__bot_token (Bot.init token)) with token in Hs.
  destruct (SentChat_init_fields _ _ _ Hs) as (Hb & Hc & Hm).
  unfold SentChat.edit_message_text, SentChat.delete_message,
    Bot.edit_message_text, Bot.delete_message, requests_post.
  rewrite Hb, Hc, Hm. split; reflexivity.
Qed.

Lemma send_then_edit_or_delete_witness :
  exists s,
    Client.send_message remote_accepts (Bot.init None) (VInt 42)
      (VStr (str "hi")) Bot.no_options []
    = (Ok s, [send_request None (VInt 42) (VStr (str "hi")) Bot.no_options])
    /\ snd (SentChat.delete_message remote_accepts s
              [send_request None (VInt 42) (VStr (str "hi")) Bot.no_options])
       = [send_request None (VInt 42) (VStr (str "hi")) Bot.no_options;
          {| url := str "https://api.telegram.org/botNone/deleteMessage";
             json := VDict [(str "chat_id", VInt 42);
                            (str "message_id", VInt 9)] |}].
Proof.
  evar (s : SentChat.t).
  assert (Hs : Client.send_message remote_accepts (Bot.init None) (VInt 42)
                 (VStr (str "hi")) Bot.no_options []
               = (Ok s, [send_request None (VInt 42) (VStr (str "hi"))
                           Bot.no_options]))
    by (unfold s; reflexivity).
  exists s. split; [exact Hs|].
  destruct (send_then_edit_or_delete remote_accepts None (VInt 42)
              (VStr (str "hi")) Bot.no_options [] _ s VNone Hs)
    as (response & Hr & _ & _ & Hd).
  injection Hr as <-. rewrite Hd. reflexivity.
Defined.

(** When the remote API answers with a mapping whose second value is not a
    mapping, as in its error answers (ok, error_code, description),
    send_message raises AttributeError, after the request has been sent. *)
Theorem send_message_refused_AttributeError
        (remote : trace -> request -> result value) (token : option pystr)
        (chat_id text : value) (o : Bot.options) (tr : trace)
        (first : pystr * value) (key : pystr) (v : value) (rest : dict) :
  remote tr (send_request token chat_id text o)
  = Ok (VDict (first :: (key, v) :: rest)) ->
  mapping_if_present (Some v) = false ->
  Client.send_message remote (Bot.init token) chat_id text o tr
  = (Raise AttributeError, tr ++ [send_request token chat_id text o]).
Proof.
  intros Hr Hv.
  unfold Client.send_message, io_bind, requests_post, io_ret.
  fold (send_request token chat_id text o). rewrite Hr.
  cbn [bind py_items]. unfold SentChat.init, items_nth.
  cbn [nth_error bind fst snd].
  destruct v; try reflexivity. discriminate Hv.
Qed.

Lemma send_message_refused_AttributeError_witness :
  Client.send_message remote_refuses (Bot.init None) (VInt 42)
    (VStr (str "hi")) Bot.no_options []
  = (Raise AttributeError,
     [] ++ [send_request None (VInt 42) (VStr (str "hi")) Bot.no_options]).
Proof.
  apply (send_message_refused_AttributeError remote_refuses None (VInt 42)
           (VStr (str "hi")) Bot.no_options []
           (str "ok", VBool false) (str "error_code") (VInt 400)
           [(str "description", VStr (str "Bad Request: chat not found"))]);
    reflexivity.
Defined.

(** ** Answering an update *)

(** An update validated by a client and answered with reply_message: one
    request goes to sendMessage of the same bot; it is addressed to the
    sender (from.id of the kind payload, not the chat) and replies to the
    payload's message_id; everything else has its default. *)
Theorem reply_message_goes_to_sender
        (remote : trace -> request -> result value) (token : option pystr)
        (update : dict) (first : pystr * value) (kind : pystr)
        (payload : value) (rest : dict) (u : UpdateChat.t)
        (text : value) (tr : trace) :
  update = first :: (kind, payload) :: rest ->
  kind <> str "callback_query" ->
  validate_update (Bot.init token) update = Ok u ->
  snd (UpdateChat.reply_message remote u text tr)
  = tr ++ [{| url := Bot.__base_url (Bot.init token) ++ str "/sendMessage";
              json :=
                VDict
                  [(str "chat_id",
                     or_None (field [str "from"; str "id"] payload));
                   (str "parse_mode", VStr (str "HTML"));
                   (str "text", text);
                   (str "allow_sending_without_reply", VBool false);
                   (str "disable_web_page_preview", VBool false);
                   (str "reply_to_message_id",
                     or_None (field [str "message_id"] payload));
                   (str "reply_markup", VStr (str "{}"));
                   (str "disable_notification", VBool false);
                   (str "protect_content", VBool false);
                   (str "message_thread_id", VNone);
                   (str "entities", VStr (str "{}"))] |}].
Proof.
  intros -> Hkind Hu. unfold validate_update in Hu.
  change (Bot.__bot_token (Bot.init token)) with token in Hu.
  pose proof (UpdateChat_init_Ok_well_formed _ _ _ Hu) as Hwf.
  destruct (UpdateChat_init_well_formed _ token Hwf)
    as (kind' & body & u' & [= <- ->] & Hinit & Hfrom & _ & Hids).
  rewrite Hu in Hinit. injection Hinit as <-.
  apply str_eqb_neq in Hkind. rewrite Hkind in Hids.
  destruct Hids as [_ Hmid].
  destruct (UpdateChat_init_fields _ _ _ Hu) as (_ & _ & _ & _ & Hb & _).
  unfold UpdateChat.reply_message, Client.send_message, io_bind,
    requests_post, io_ret.
  rewrite Hb, Hfrom, Hmid.
  match goal with
  | |- context [remote ?t ?r] => destruct (remote t r)
  end; reflexivity.
Qed.

Lemma reply_message_goes_to_sender_witness :
  exists u,
    validate_update (Bot.init None) go_foo = Ok u
    /\ snd (UpdateChat.reply_message remote_accepts u (VStr (str "ok")) [])
       = [{| url := str "https://api.telegram.org/botNone/sendMessage";
             json :=
               VDict
                 [(str "chat_id", VInt 7);
                  (str "parse_mode", VStr (str "HTML"));
                  (str "text", VStr (str "ok"));
                  (str "allow_sending_without_reply", VBool false);
                  (str "disable_web_page_preview", VBool false);
                  (str "reply_to_message_id", VInt 5);
                  (str "reply_markup", VStr (str "{}"));
                  (str "disable_notification", VBool false);
                  (str "protect_content", VBool false);
                  (str "message_thread_id", VNone);
                  (str "entities", VStr (str "{}"))] |}].
Proof.
  eexists. split; [reflexivity|].
  apply (reply_message_goes_to_sender remote_accepts None go_foo
           _ _ _ _ _ (VStr (str "ok")) [] eq_refl);
    [discriminate | reflexivity].
Defined.


(** ** Construction of the client *)

(** A token passed to the constructor is the one used, and the token of
    the environment applies only when the argument is left out: passing
    None does not fall back to the environment. *)
Theorem explicit_token_overrides_environment
        (environ : list (pystr * pystr)) (from_env : pystr) (tr : trace) :
  Bot.BOT_TOKEN environ = Some from_env ->
  Bot.new environ None tr
  = (Ok {| Bot.__bot_token := Some from_env;
           Bot.__base_url := str "https://api.telegram.org/bot" ++ from_env |},
     tr)
  /\ (forall tok,
        Bot.new environ (Some (Some tok)) tr
        = (Ok {| Bot.__bot_token := Some tok;
                 Bot.__base_url := str "https://api.telegram.org/bot" ++ tok |},
           tr))
  /\ Bot.new environ (Some None) tr
     = (Ok {| Bot.__bot_token := None;
              Bot.__base_url := str "https://api.telegram.org/botNone" |}, tr).
Proof.
  intros Henv. unfold Bot.new, io_ret. rewrite Henv.
  repeat split; reflexivity.
Qed.

Lemma explicit_token_overrides_environment_witness :
  Bot.new [(str "TG_BOT_TOKEN", str "123:abc")] (Some None) []
  = (Ok {| Bot.__bot_token := None;
           Bot.__base_url := str "https://api.telegram.org/botNone" |}, []).
Proof.
  apply (explicit_token_overrides_environment
           [(str "TG_BOT_TOKEN", str "123:abc")] (str "123:abc") []).
  reflexivity.
Defined.
